(** * mtdata: the command-line front end (mtdata/main.py)

    A shallow embedding of [mtdata/main.py]: the language-pair and
    dataset-identifier parsers, the [list], [get] and [report] workflows,
    the argument parser and the [main] dispatch, followed by the properties
    the specification states about them.

    Strings are Python [str] values restricted to code points below 256, one
    [ascii] per code point.  The file system is a finite map from paths to
    file contents; every observable effect of the front end (log lines,
    console output, appends, renames, calls to collaborators) is also
    recorded in a trace. *)

From stdpp Require Import gmap strings list.
From Stdlib Require Import Ascii.

Local Open Scope stdpp_scope.

(** ** Python string built-ins used by main.py *)

Module Py.

(** [str.isspace] on one code point below 256: TAB..CR, FS..US, SPACE,
    NEL (0x85) and NBSP (0xA0). *)
Definition isspace (c : ascii) : bool :=
  let n := nat_of_ascii c in
  ((9 <=? n) && (n <=? 13)) || ((28 <=? n) && (n <=? 32))
  || (n =? 133) || (n =? 160).

Fixpoint lstrip (s : string) : string :=
  match s with
  | EmptyString => EmptyString
  | String c r => if isspace c then lstrip r else s
  end.

Fixpoint rstrip (s : string) : string :=
  match s with
  | EmptyString => EmptyString
  | String c r =>
      match rstrip r with
      | EmptyString => if isspace c then EmptyString else String c EmptyString
      | r' => String c r'
      end
  end.

(** [s.strip()] *)
Definition strip (s : string) : string := rstrip (lstrip s).

(** [s.split(sep)] for a one-character separator: never returns the empty
    list, and [''.split(sep) == ['']]. *)
Fixpoint split (sep : ascii) (s : string) : list string :=
  match s with
  | EmptyString => [EmptyString]
  | String c r =>
      if Ascii.eqb c sep then EmptyString :: split sep r
      else match split sep r with
           | h :: t => String c h :: t
           | [] => [String c EmptyString]
           end
  end.

(** [sep.join(l)] *)
Fixpoint join (sep : string) (l : list string) : string :=
  match l with
  | [] => EmptyString
  | [x] => x
  | x :: rest => x +:+ sep +:+ join sep rest
  end.

(** [c in s] for a character [c] *)
Fixpoint contains (c : ascii) (s : string) : bool :=
  match s with
  | EmptyString => false
  | String d r => Ascii.eqb d c || contains c r
  end.

(** [s.startswith(p)] *)
Fixpoint startswith (p s : string) : bool :=
  match p, s with
  | EmptyString, _ => true
  | String a p', String b s' => Ascii.eqb a b && startswith p' s'
  | String _ _, EmptyString => false
  end.

(** Truthiness of a [str]: the empty string is falsy. *)
Definition truthy (s : string) : bool :=
  match s with EmptyString => false | _ => true end.

(** [str(n)] for a non-negative [int]. *)
Fixpoint digits (fuel n : nat) (acc : string) : string :=
  match fuel with
  | 0 => acc
  | S fuel' =>
      let acc' := String (ascii_of_nat (48 + n mod 10)) acc in
      if n / 10 =? 0 then acc' else digits fuel' (n / 10) acc'
  end.

Definition str_int (n : nat) : string := digits (S n) n EmptyString.

(** [f'{n:,}']: the decimal digits in groups of three, from the right,
    separated by commas. *)
Fixpoint group3 (fuel n : nat) (acc : string) : string :=
  match fuel with
  | 0 => acc
  | S fuel' =>
      if n / 1000 =? 0 then str_int n +:+ acc
      else
        let r := n mod 1000 in
        let pad := if r <? 10 then "00" else if r <? 100 then "0" else EmptyString in
        group3 fuel' (n / 1000) ("," +:+ pad +:+ str_int r +:+ acc)
  end.

Definition format_thousands (n : nat) : string := group3 (S n) n EmptyString.

End Py.

(** ** pathlib.Path

    A path is its tuple of parts, as [PurePosixPath.parts] gives it: the root
    ("/" or "//"), when there is one, is the first part. *)

Module Path.

(** [Path(s)]: empty and "." components are dropped; a run of exactly two
    leading slashes is kept as the root "//". *)
Definition of_str (s : string) : list string :=
  let parts := filter (λ p, p ≠ EmptyString ∧ p ≠ ".") (Py.split "/" s) in
  if Py.startswith "/" s then
    (if Py.startswith "//" s && negb (Py.startswith "///" s)
     then "//" else "/") :: parts
  else parts.

Definition is_absolute (p : list string) : bool :=
  match p with
  | r :: _ => Py.startswith "/" r
  | [] => false
  end.

(** [str(p)] *)
Definition str (p : list string) : string :=
  match p with
  | [] => "."
  | r :: rest => if Py.startswith "/" r then r +:+ Py.join "/" rest
                 else Py.join "/" p
  end.

(** [p / s] *)
Definition truediv (p : list string) (s : string) : list string :=
  let q := of_str s in
  if is_absolute q then q else p ++ q.

(** [p.name]: the last part, unless it is the root. *)
Definition name (p : list string) : string :=
  match last p with
  | Some n => if Py.contains "/" n then EmptyString else n
  | None => EmptyString
  end.

(** [p.parent] (for a path that has a name) *)
Definition parent (p : list string) : list string := removelast p.

(** [s.rfind('.')] *)
Fixpoint rfind_dot (s : string) : option nat :=
  match s with
  | EmptyString => None
  | String c r =>
      match rfind_dot r with
      | Some i => Some (S i)
      | None => if Ascii.eqb c "." then Some 0 else None
      end
  end.

(** [p.suffix], computed on the name: the part from the last dot on, when
    that dot is neither the first nor the last character. *)
Definition suffix (n : string) : string :=
  match rfind_dot n with
  | Some i =>
      if (0 <? i) && (i <? String.length n - 1)
      then String.substring i (String.length n - i) n
      else EmptyString
  | None => EmptyString
  end.

(** [p.with_suffix(suffix)]; [None] stands for the [ValueError] pathlib
    raises on an invalid suffix or a path without a name. *)
Definition with_suffix (p : list string) (sfx : string) : option (list string) :=
  if Py.contains "/" sfx then None
  else if (Py.truthy sfx && negb (Py.startswith "." sfx)) || bool_decide (sfx = ".")
  then None
  else
    let n := name p in
    if negb (Py.truthy n) then None
    else
      let old := suffix n in
      let n' := if negb (Py.truthy old) then n +:+ sfx
                else String.substring 0 (String.length n - String.length old) n +:+ sfx in
      Some (removelast p ++ [n']).

End Path.

Abbreviation Path := (list string) (only parsing).

(** ** Exceptions *)

Inductive Exc : Type :=
  | ArgumentTypeError (msg : string)   (* argparse.ArgumentTypeError *)
  | AssertionError (msg : string)      (* a failed [assert] *)
  | Exception (msg : string)           (* [raise Exception(...)] *)
  | SystemExit (code : nat)            (* argparse: usage error, --help, --version *)
  | Raised (cls msg : string).         (* any other exception class *)

(** [str(e)] *)
Definition Exc_str (e : Exc) : string :=
  match e with
  | ArgumentTypeError m | AssertionError m | Exception m | Raised _ m => m
  | SystemExit c => Py.str_int c
  end.

(** ** Language tags (mtdata.iso.bcp47)

    The registry of language tags is not part of main.py: the type of tags,
    their string form and the resolver [bcp47] are an interface. *)

Class LanguageTags : Type := {
  BCP47Tag : Type;
  BCP47Tag_str : BCP47Tag → string;          (* str(tag) *)
  bcp47 : string → Exc + BCP47Tag;           (* bcp47(code), may raise *)
}.

(** [LangPair = Tuple[BCP47Tag, BCP47Tag]] *)
Abbreviation LangPair := (BCP47Tag * BCP47Tag)%type (only parsing).

Module DatasetId.
(** Modelled from the spec: the class [DatasetId] of mtdata.entry, which
    main.py imports; a structured identifier with fields group, name,
    version and langs, stored as given. *)
Record t `{LanguageTags} : Type := mk {
  group : string;
  name : string;
  version : string;
  langs : LangPair;
}.
Arguments mk {_} _ _ _ _.

(** Modelled from the spec: [DatasetId.__str__] of mtdata.entry, the
    hyphen-joined form group-name-version-source-target. *)
Definition str `{LanguageTags} (d : t) : string :=
  group d +:+ "-" +:+ name d +:+ "-" +:+ version d +:+ "-"
  +:+ BCP47Tag_str (langs d).1 +:+ "-" +:+ BCP47Tag_str (langs d).2.
End DatasetId.

Module Entry.
(** A catalog entry, as far as main.py reads it. *)
Record t : Type := mk {
  format : string → string;      (* ent.format(delim=...) *)
  cite : option string;          (* ent.cite *)
  langs : list string;           (* ent.langs *)
  name : string;                 (* ent.name *)
}.
End Entry.

Module Dataset.
Record t : Type := mk { dir : Path }.
End Dataset.

(** ** Effects

    What a run of the front end does to the outside world: the file system
    after it, and the trace of everything it did, oldest first. *)

Inductive Event `{LanguageTags} : Type :=
  | LogInfo (msg : string)                       (* log.info(msg) *)
  | SetDebug                                     (* log level DEBUG, debug_mode *)
  | Print (text : string)                        (* text written to stdout *)
  | Rename (src dst : Path)                      (* src.rename(dst) *)
  | Append (path : Path) (text : string)         (* text appended to a file *)
  | CallGetEntries (langs : option LangPair) (names not_names : option (list string))
      (fuzzy_match : bool)                       (* mtdata.data.get_entries *)
  | CallPrepare (langs : option LangPair)
      (train_dids test_dids : option (list DatasetId.t))
      (out_dir : option Path) (cache_dir : Path) (merge_train : bool).
                                                 (* mtdata.data.Dataset.prepare *)
Arguments LogInfo {_} _.
Arguments SetDebug {_}.
Arguments Print {_} _.
Arguments Rename {_} _ _.
Arguments Append {_} _ _.
Arguments CallGetEntries {_} _ _ _ _.
Arguments CallPrepare {_} _ _ _ _ _ _.

Record Run `{LanguageTags} : Type := mkRun {
  files : gmap (list string) string;
  trace : list Event;
}.
Arguments mkRun {_} _ _.

(** A computation that may raise: it returns an exception or a value, and the
    run so far. *)
Definition M `{LanguageTags} (A : Type) : Type := Run → (Exc + A) * Run.

#[export] Instance M_ret `{LanguageTags} : MRet M := λ A a r, (inr a, r).

#[export] Instance M_bind `{LanguageTags} : MBind M := λ A B f m r,
  match m r with
  | (inl e, r') => (inl e, r')
  | (inr a, r') => f a r'
  end.

Definition raise `{LanguageTags} {A : Type} (e : Exc) : M A := λ r, (inl e, r).

(** Lift a pure result that may be an exception. *)
Definition lift `{LanguageTags} {A : Type} (x : Exc + A) : M A := λ r, (x, r).

Definition emit `{LanguageTags} (ev : Event) : M unit :=
  λ r, (inr (), mkRun (files r) (trace r ++ [ev])).

Definition log_info `{LanguageTags} (msg : string) : M unit := emit (LogInfo msg).

Definition nl : string := String "010" EmptyString.
Definition tab : string := String "009" EmptyString.

(** [print(text, end=e)] *)
Definition print_end `{LanguageTags} (text e : string) : M unit := emit (Print (text +:+ e)).

(** [print(text)] *)
Definition print `{LanguageTags} (text : string) : M unit := print_end text nl.

(** [for x in l: body(x)] *)
Fixpoint for_each `{LanguageTags} {A : Type} (l : list A) (body : A → M unit) : M unit :=
  match l with
  | [] => mret ()
  | x :: rest => _ ← body x; for_each rest body
  end.

(** [p.exists()] *)
Definition Path_exists `{LanguageTags} (p : Path) : M bool :=
  λ r, (inr (bool_decide (is_Some (files r !! p))), r).

(** [src.rename(dst)]: the file is moved, replacing whatever was at [dst]. *)
Definition Path_rename `{LanguageTags} (src dst : Path) : M unit := λ r,
  match files r !! src with
  | Some content =>
      (inr (), mkRun (<[dst := content]> (delete src (files r)))
                     (trace r ++ [Rename src dst]))
  | None => (inl (Raised "FileNotFoundError" (Path.str src)), r)
  end.

(** Modelled from the spec: [IO.writer(path, append=True)] of mtdata.utils,
    used as [with IO.writer(...) as w: w.write(text)]; the text is added at
    the end of the file, which is created when it does not exist. *)
Definition IO_writer_append_write `{LanguageTags} (path : Path) (text : string) : M unit :=
  λ r, (inr (), mkRun (<[path := default EmptyString (files r !! path) +:+ text]> (files r))
                      (trace r ++ [Append path text])).

(** ** Collaborators of main.py

    The rest of the package, which main.py imports: the version string, the
    cache locations, the catalog query, the acquisition and the validation
    [DatasetId]'s constructor performs.  The catalog query and the
    acquisition work on the file system and may raise. *)

Class Collaborators `{LanguageTags} : Type := {
  __version__ : string;
  CACHE_DIR : Path;
  cached_index_file : Path;
  (** the checks of [DatasetId.__init__]: [Some e] when it raises [e] *)
  DatasetId_check : string → string → string → LangPair → option Exc;
  get_entries : option LangPair → option (list string) → option (list string) →
                bool → gmap (list string) string →
                (Exc + list Entry.t) * gmap (list string) string;
  Dataset_prepare : option LangPair → option (list DatasetId.t) →
                    option (list DatasetId.t) → option Path → Path → bool →
                    gmap (list string) string →
                    (Exc + Dataset.t) * gmap (list string) string;
}.

(** Modelled from the spec: the default of the [fuzzy_match] parameter of
    [get_entries] (mtdata.data), which applies when a caller leaves it out. *)
Definition fuzzy_match_default : bool := false.

(** A call of a collaborator is recorded in the trace before it runs; the
    collaborator itself only sees the file system. *)
Definition call_get_entries `{Collaborators} (langs : option LangPair)
    (names not_names : option (list string)) (fuzzy_match : option bool)
    : M (list Entry.t) := λ r,
  let fz := default fuzzy_match_default fuzzy_match in
  let '(res, fs) := get_entries langs names not_names fz (files r) in
  (res, mkRun fs (trace r ++ [CallGetEntries langs names not_names fz])).

Definition call_Dataset_prepare `{Collaborators} (langs : option LangPair)
    (train_dids test_dids : option (list DatasetId.t)) (out_dir : option Path)
    (cache_dir : Path) (merge_train : bool) : M Dataset.t := λ r,
  let '(res, fs) := Dataset_prepare langs train_dids test_dids out_dir cache_dir
                      merge_train (files r) in
  (res, mkRun fs (trace r ++ [CallPrepare langs train_dids test_dids out_dir
                                cache_dir merge_train])).

(** [DatasetId(group=..., name=..., version=..., langs=...)] *)
Definition DatasetId_init `{Collaborators} (group name version : string)
    (langs : LangPair) : Exc + DatasetId.t :=
  match DatasetId_check group name version langs with
  | Some e => inl e
  | None => inr (DatasetId.mk group name version langs)
  end.

(** ** The parsers of main.py *)

(** The double-quote character, for messages that contain it. *)
Definition dq : string := String "034" EmptyString.

(** Line 83: the string form of a pair of tags, ['-'.join(str(lang) for lang
    in std_codes)]; the specification calls it the canonical string form of
    the pair. *)
Definition std_form `{LanguageTags} (std_codes : LangPair) : string :=
  Py.join "-" [BCP47Tag_str std_codes.1; BCP47Tag_str std_codes.2].

(** [lang_pair(string)], lines 77-87.  The emoji that ends the suggestion is
    kept as the bytes of its UTF-8 encoding. *)
Definition lang_pair `{LanguageTags} (s : string) : M LangPair :=
  let parts := Py.split "-" s in
  match parts with
  | [part0; part1] =>
      lang0 ← lift (bcp47 part0);
      lang1 ← lift (bcp47 part1);
      let std_codes := (lang0, lang1) in
      let std_form := std_form std_codes in
      _ ← (if bool_decide (std_form ≠ s)
           then log_info ("Suggestion: Use codes " +:+ std_form +:+ " instead of "
                          +:+ s +:+ "."
                          +:+ " Let's make a little space for all languages of our planet 😢.")
           else mret ());
      mret std_codes
  | _ =>
      let msg := "expected value of form " +:+ dq +:+ "xxx-yyz" +:+ dq +:+ " eg "
                 +:+ dq +:+ "deu-eng" +:+ dq +:+ "; given " +:+ s in
      raise (ArgumentTypeError msg)
  end.

Definition expected_format : string := "<group>-<name>-<version>-<l1>-<l2>".

(** The message of the error [dataset_id] raises on a wrong number of
    fields, lines 94-95. *)
Definition dataset_id_msg (s : string) : string :=
  "Dataset ID expected in format: " +:+ expected_format +:+ "; but given " +:+ s
  +:+ "." +:+ " If you are unsure, run " +:+ dq +:+ "mtdata list | grep -i <name>"
  +:+ dq +:+ " and copy its id.".

(** [dataset_id(string)], lines 90-102.  [except Exception] does not catch
    [SystemExit]. *)
Definition dataset_id `{Collaborators} (s : string) : M DatasetId.t :=
  let parts := Py.split "-" (Py.strip s) in
  match parts with
  | [group; name; version; lang1; lang2] =>
      langs ← lang_pair (lang1 +:+ "-" +:+ lang2);
      match DatasetId_init group name version langs with
      | inr did => mret did
      | inl (SystemExit c) => raise (SystemExit c)
      | inl e => raise (ArgumentTypeError (Exc_str e))
      end
  | _ => raise (ArgumentTypeError (dataset_id_msg s))
  end.

(** ** The namespace argparse returns *)

Module Namespace.
Record t `{LanguageTags} : Type := mk {
  verbose : bool;
  reindex : bool;
  task : string;
  langs : option LangPair;
  names : option (list string);
  not_names : option (list string);
  full : bool;
  out : option Path;
  train_dids : option (list DatasetId.t);
  test_dids : option (list DatasetId.t);
  merge : bool;
}.
Arguments mk {_} _ _ _ _ _ _ _ _ _ _ _.

(** Every attribute at its default; [task] is set by the subcommand. *)
Definition initial `{LanguageTags} : t :=
  mk false false EmptyString None None None false None None None false.

Definition set_verbose `{LanguageTags} (v : bool) (a : t) : t :=
  mk v (reindex a) (task a) (langs a) (names a) (not_names a) (full a) (out a)
     (train_dids a) (test_dids a) (merge a).
Definition set_reindex `{LanguageTags} (v : bool) (a : t) : t :=
  mk (verbose a) v (task a) (langs a) (names a) (not_names a) (full a) (out a)
     (train_dids a) (test_dids a) (merge a).
Definition set_task `{LanguageTags} (v : string) (a : t) : t :=
  mk (verbose a) (reindex a) v (langs a) (names a) (not_names a) (full a) (out a)
     (train_dids a) (test_dids a) (merge a).
Definition set_langs `{LanguageTags} (v : option LangPair) (a : t) : t :=
  mk (verbose a) (reindex a) (task a) v (names a) (not_names a) (full a) (out a)
     (train_dids a) (test_dids a) (merge a).
Definition set_names `{LanguageTags} (v : option (list string)) (a : t) : t :=
  mk (verbose a) (reindex a) (task a) (langs a) v (not_names a) (full a) (out a)
     (train_dids a) (test_dids a) (merge a).
Definition set_not_names `{LanguageTags} (v : option (list string)) (a : t) : t :=
  mk (verbose a) (reindex a) (task a) (langs a) (names a) v (full a) (out a)
     (train_dids a) (test_dids a) (merge a).
Definition set_full `{LanguageTags} (v : bool) (a : t) : t :=
  mk (verbose a) (reindex a) (task a) (langs a) (names a) (not_names a) v (out a)
     (train_dids a) (test_dids a) (merge a).
Definition set_out `{LanguageTags} (v : option Path) (a : t) : t :=
  mk (verbose a) (reindex a) (task a) (langs a) (names a) (not_names a) (full a) v
     (train_dids a) (test_dids a) (merge a).
Definition set_train_dids `{LanguageTags} (v : option (list DatasetId.t)) (a : t) : t :=
  mk (verbose a) (reindex a) (task a) (langs a) (names a) (not_names a) (full a)
     (out a) v (test_dids a) (merge a).
Definition set_test_dids `{LanguageTags} (v : option (list DatasetId.t)) (a : t) : t :=
  mk (verbose a) (reindex a) (task a) (langs a) (names a) (not_names a) (full a)
     (out a) (train_dids a) v (merge a).
Definition set_merge `{LanguageTags} (v : bool) (a : t) : t :=
  mk (verbose a) (reindex a) (task a) (langs a) (names a) (not_names a) (full a)
     (out a) (train_dids a) (test_dids a) v.
End Namespace.

(** ** The workflows *)

(** Truthiness of an attribute that is [None] or a list. *)
Definition truthy {A : Type} (l : option (list A)) : bool :=
  match l with
  | Some (_ :: _) => true
  | _ => false
  end.

(** [x or y] on an optional string. *)
Definition str_or (x : option string) (y : string) : string :=
  match x with
  | Some c => if Py.truthy c then c else y
  | None => y
  end.

(** [list_data(langs, names, not_names, full)], lines 20-28 *)
Definition list_data `{Collaborators} (langs : option LangPair)
    (names not_names : option (list string)) (full : bool) : M unit :=
  entries ← call_get_entries langs names not_names (Some true);
  _ ← log_info ("Found " +:+ Py.str_int (length entries));
  _ ← for_each entries (λ ent,
        _ ← print (Entry.format ent tab);
        if full then print_end (str_or (Entry.cite ent) "CITATION_NOT_LISTED") (nl +:+ nl)
        else mret ());
  print ("Total " +:+ Py.str_int (length entries) +:+ " entries").

(** Iterating over [args.langs]: a [TypeError] when it is [None]. *)
Definition iter_langs `{LanguageTags} (langs : option LangPair) : M (list BCP47Tag) :=
  match langs with
  | Some (l1, l2) => mret [l1; l2]
  | None => raise (Raised "TypeError" "'NoneType' object is not iterable")
  end.

(** The record [get_data] composes, lines 37-40. *)
Definition cli_signature `{Collaborators} (langs : list BCP47Tag)
    (train_dids test_dids : option (list DatasetId.t)) : string :=
  let cli_sig := "-l " +:+ Py.join "-" (BCP47Tag_str <$> langs) in
  let cli_sig := cli_sig +:+
    (if truthy train_dids
     then " -tr " +:+ Py.join " " (DatasetId.str <$> default [] train_dids)
     else EmptyString) in
  let cli_sig := cli_sig +:+
    (if truthy test_dids
     then " -ts " +:+ Py.join " " (DatasetId.str <$> default [] test_dids)
     else EmptyString) in
  "mtdata get " +:+ cli_sig +:+ " -o <out-dir>" +:+ nl
  +:+ "mtdata version " +:+ __version__ +:+ nl.

(** [get_data(args)], lines 31-44 *)
Definition get_data `{Collaborators} (args : Namespace.t) : M unit :=
  if negb (truthy (Namespace.train_dids args) || truthy (Namespace.test_dids args))
  then raise (AssertionError "Required --train or --test or both")
  else
    dataset ← call_Dataset_prepare (Namespace.langs args) (Namespace.train_dids args)
                (Namespace.test_dids args) (Namespace.out args) CACHE_DIR
                (Namespace.merge args);
    langs ← iter_langs (Namespace.langs args);
    let sig := cli_signature langs (Namespace.train_dids args)
                 (Namespace.test_dids args) in
    _ ← log_info ("Dataset is ready at " +:+ Path.str (Dataset.dir dataset));
    _ ← log_info ("mtdata args for reproducing this dataset:" +:+ nl +:+ " " +:+ sig);
    match Namespace.out args with
    | Some out => IO_writer_append_write (Path.truediv out "mtdata.signature.txt") sig
    | None => raise (Raised "TypeError"
                       "unsupported operand type(s) for /: 'NoneType' and 'str'")
    end.

(** [d[key] += 1] on a [defaultdict(int)]: a new key goes last. *)
Fixpoint incr (key : string) (d : list (string * nat)) : list (string * nat) :=
  match d with
  | [] => [(key, 1)]
  | (k, v) :: rest => if String.eqb k key then (k, S v) :: rest
                      else (k, v) :: incr key rest
  end.

(** [generate_report(langs, names, not_names)], lines 47-62 *)
Definition generate_report `{Collaborators} (langs : option LangPair)
    (names not_names : option (list string)) : M unit :=
  entries ← call_get_entries langs names not_names None;
  let lang_stats := foldl (λ d ent, incr (Py.join "_" (Entry.langs ent)) d) [] entries in
  let name_stats := foldl (λ d ent, incr (Entry.name ent) d) [] entries in
  _ ← print "Languages:";
  _ ← for_each lang_stats (λ kv, print (kv.1 +:+ tab +:+ Py.format_thousands kv.2));
  _ ← print (nl +:+ "Names:");
  for_each name_stats (λ kv, print (kv.1 +:+ tab +:+ Py.format_thousands kv.2)).

(** [list_experiments(args)], lines 65-66 *)
Definition list_experiments `{LanguageTags} (args : Namespace.t) : M unit :=
  raise (Exception "Not implemented yet").

(** ** The argument parser, lines 105-167

    The parsers main.py declares are tables of options; [parse_sub] and
    [parse_top] read an argument vector against them the way argparse does:
    an option string selects the option registered under exactly that
    string, a one-value option takes the next argument, a [nargs='*'] option
    takes the arguments up to the next option-like one, and what no option
    takes is left over and makes the parse fail at the end.  A failed parse
    is [SystemExit 2] and [--help] is [SystemExit 0]; the usage and help
    texts argparse writes are not recorded, and neither is [MyFormatter],
    which only lays out the help text.  The other spellings argparse
    accepts for an option (an unambiguous prefix, [--opt=value], a value
    attached to a short option, the [--] separator) are left out: they
    change which option an argument selects, not the attribute an option
    stores into. *)

Module Argparse.

Inductive Dest : Type :=
  | DLangs | DNames | DNotNames | DFull | DOut | DTrainDids | DTestDids | DMerge.

Inductive Kind : Type :=
  | Help                      (* -h/--help, added by argparse *)
  | StoreConst (b : bool)     (* action='store_true' / 'store_false' *)
  | StoreOne                  (* one value *)
  | StoreStar.                (* nargs='*' *)

Record Opt : Type := mkOpt {
  option_strings : list string;
  dest : Dest;
  kind : Kind;
  required : bool;
  conflicts : list string;    (* the other options of its exclusive group *)
}.

Definition help_opt : Opt := mkOpt ["-h"; "--help"] DFull Help false [].

(** [list_p], lines 129-137 *)
Definition list_p : list Opt :=
  [ help_opt;
    mkOpt ["-l"; "--langs"] DLangs StoreOne false [];
    mkOpt ["-n"; "--names"] DNames StoreStar false [];
    mkOpt ["-nn"; "--not-names"] DNotNames StoreStar false [];
    mkOpt ["-f"; "--full"] DFull (StoreConst true) false [];
    mkOpt ["-o"; "--out"] DOut StoreOne false [] ].

(** [get_p], lines 139-154, with [add_boolean_arg], lines 105-109 *)
Definition get_p : list Opt :=
  [ help_opt;
    mkOpt ["-l"; "--langs"] DLangs StoreOne true [];
    mkOpt ["-tr"; "--train"] DTrainDids StoreStar false [];
    mkOpt ["-ts"; "--test"] DTestDids StoreStar false [];
    mkOpt ["--merge"] DMerge (StoreConst true) false ["--no-merge"];
    mkOpt ["--no-merge"] DMerge (StoreConst false) false ["--merge"];
    mkOpt ["-o"; "--out"] DOut StoreOne true [] ].

(** [report_p], lines 156-161 *)
Definition report_p : list Opt :=
  [ help_opt;
    mkOpt ["-l"; "--langs"] DLangs StoreOne false [];
    mkOpt ["-n"; "--names"] DNames StoreStar false [];
    mkOpt ["-nn"; "--not-names"] DNotNames StoreStar false [] ].

(** The subcommands registered on [sub_ps], lines 129, 139 and 156. *)
Definition subparsers : list (string * list Opt) :=
  [ ("list", list_p); ("get", get_p); ("report", report_p) ].

Definition find_subparser (name : string) : option (list Opt) :=
  snd <$> List.find (λ p, String.eqb (fst p) name) subparsers.

Definition find_opt (a : string) (opts : list Opt) : option Opt :=
  List.find (λ o, bool_decide (a ∈ option_strings o)) opts.

(** The first option string names the option. *)
Definition opt_id (o : Opt) : string := default EmptyString (head (option_strings o)).

Definition is_digit (c : ascii) : bool :=
  let n := nat_of_ascii c in (48 <=? n) && (n <=? 57).

Fixpoint all_digits (s : string) : bool :=
  match s with
  | EmptyString => true
  | String c r => is_digit c && all_digits r
  end.

(** argparse's pattern for negative numbers: -\d+ or -\d*\.\d+ *)
Definition negative_number (s : string) : bool :=
  match s with
  | String c r =>
      Ascii.eqb c "-" &&
      ((Py.truthy r && all_digits r) ||
       match Py.split "." r with
       | [a; b] => all_digits a && Py.truthy b && all_digits b
       | _ => false
       end)
  | EmptyString => false
  end.

(** An argument that is no registered option string still counts as an
    option when it starts with a dash, is longer than the dash, is not a
    negative number and holds no space. *)
Definition looks_like_option (a : string) : bool :=
  Py.startswith "-" a && (1 <? String.length a) && negb (negative_number a)
  && negb (Py.contains " " a).

(** Applying an option's [type=]: argparse turns [ArgumentTypeError],
    [TypeError] and [ValueError] into a usage error. *)
Definition convert `{LanguageTags} {A : Type} (m : M A) : M A := λ r,
  match m r with
  | (inl (ArgumentTypeError _), r') => (inl (SystemExit 2), r')
  | (inl (Raised cls msg), r') =>
      if bool_decide (cls = "TypeError" ∨ cls = "ValueError")
      then (inl (SystemExit 2), r') else (inl (Raised cls msg), r')
  | res => res
  end.

Definition store_const `{LanguageTags} (d : Dest) (b : bool) (ns : Namespace.t)
    : Namespace.t :=
  match d with
  | DFull => Namespace.set_full b ns
  | DMerge => Namespace.set_merge b ns
  | _ => ns
  end.

(** A one-value option stores the converted value. *)
Definition store_one `{Collaborators} (d : Dest) (v : string) (ns : Namespace.t)
    : M Namespace.t :=
  match d with
  | DLangs => lp ← convert (lang_pair v); mret (Namespace.set_langs (Some lp) ns)
  | DOut => mret (Namespace.set_out (Some (Path.of_str v)) ns)
  | _ => mret ns
  end.

(** A [nargs='*'] option starts from the empty list ... *)
Definition store_star_begin `{LanguageTags} (d : Dest) (ns : Namespace.t)
    : Namespace.t :=
  match d with
  | DNames => Namespace.set_names (Some []) ns
  | DNotNames => Namespace.set_not_names (Some []) ns
  | DTrainDids => Namespace.set_train_dids (Some []) ns
  | DTestDids => Namespace.set_test_dids (Some []) ns
  | _ => ns
  end.

(** ... and adds each converted value at the end. *)
Definition store_star_add `{Collaborators} (d : Dest) (v : string)
    (ns : Namespace.t) : M Namespace.t :=
  match d with
  | DNames =>
      mret (Namespace.set_names (Some (default [] (Namespace.names ns) ++ [v])) ns)
  | DNotNames =>
      mret (Namespace.set_not_names
              (Some (default [] (Namespace.not_names ns) ++ [v])) ns)
  | DTrainDids =>
      did ← convert (dataset_id v);
      mret (Namespace.set_train_dids
              (Some (default [] (Namespace.train_dids ns) ++ [did])) ns)
  | DTestDids =>
      did ← convert (dataset_id v);
      mret (Namespace.set_test_dids
              (Some (default [] (Namespace.test_dids ns) ++ [did])) ns)
  | _ => mret ns
  end.

(** The state of a parse: the namespace so far, the option still taking
    values (with [true] for a [nargs='*'] one), the options seen, and
    whether some argument was left over. *)
Record PState `{LanguageTags} : Type := mkPState {
  ns : Namespace.t;
  pending : option (Dest * bool);
  seen : list string;
  extras : bool;
}.
Arguments mkPState {_} _ _ _ _.

Definition awaits_value `{LanguageTags} (st : PState) : bool :=
  match pending st with
  | Some (_, false) => true
  | _ => false
  end.

Fixpoint parse_sub `{Collaborators} (opts : list Opt) (argv : list string)
    (st : PState) : M PState :=
  match argv with
  | [] => if awaits_value st then raise (SystemExit 2) else mret st
  | a :: rest =>
      match find_opt a opts with
      | Some o =>
          if awaits_value st then raise (SystemExit 2)
          else if existsb (λ c, bool_decide (c ∈ seen st)) (conflicts o)
          then raise (SystemExit 2)
          else
            let seen' := opt_id o :: seen st in
            match kind o with
            | Help => raise (SystemExit 0)
            | StoreConst b =>
                parse_sub opts rest
                  (mkPState (store_const (dest o) b (ns st)) None seen' (extras st))
            | StoreOne =>
                parse_sub opts rest
                  (mkPState (ns st) (Some (dest o, false)) seen' (extras st))
            | StoreStar =>
                parse_sub opts rest
                  (mkPState (store_star_begin (dest o) (ns st))
                            (Some (dest o, true)) seen' (extras st))
            end
      | None =>
          if looks_like_option a then
            if awaits_value st then raise (SystemExit 2)
            else parse_sub opts rest (mkPState (ns st) None (seen st) true)
          else
            match pending st with
            | Some (d, false) =>
                ns' ← store_one d a (ns st);
                parse_sub opts rest (mkPState ns' None (seen st) (extras st))
            | Some (d, true) =>
                ns' ← store_star_add d a (ns st);
                parse_sub opts rest (mkPState ns' (Some (d, true)) (seen st) (extras st))
            | None =>
                parse_sub opts rest (mkPState (ns st) None (seen st) true)
            end
      end
  end.

(** Every required option of the subcommand has been seen. *)
Definition required_seen (opts : list Opt) (seen : list string) : bool :=
  forallb (λ o, negb (required o) || bool_decide (opt_id o ∈ seen)) opts.

(** The top-level parser, lines 113-127: its own options, then the
    subcommand, which takes all the arguments after its name. *)
Fixpoint parse_top `{Collaborators} (prog : string) (argv : list string)
    (ns0 : Namespace.t) (extras0 : bool) : M Namespace.t :=
  match argv with
  | [] => raise (SystemExit 2)
  | a :: rest =>
      if bool_decide (a ∈ ["-h"; "--help"]) then raise (SystemExit 0)
      else if bool_decide (a ∈ ["-vv"; "--verbose"])
      then parse_top prog rest (Namespace.set_verbose true ns0) extras0
      else if bool_decide (a ∈ ["-v"; "--version"])
      then _ ← print (prog +:+ " " +:+ __version__); raise (SystemExit 0)
      else if bool_decide (a ∈ ["-ri"; "--reindex"])
      then parse_top prog rest (Namespace.set_reindex true ns0) extras0
      else if looks_like_option a then parse_top prog rest ns0 true
      else
        match find_subparser a with
        | Some opts =>
            st ← parse_sub opts rest
                   (mkPState (Namespace.set_task a ns0) None [] false);
            if negb (required_seen opts (seen st)) || extras0 || extras st
            then raise (SystemExit 2)
            else mret (ns st)
        | None => raise (SystemExit 2)
        end
  end.

End Argparse.

(** [parse_args()], lines 112-167, on [sys.argv = prog :: argv] *)
Definition parse_args `{Collaborators} (prog : string) (argv : list string)
    : M Namespace.t :=
  args ← Argparse.parse_top prog argv Namespace.initial false;
  _ ← (if Namespace.verbose args then emit SetDebug else mret ());
  mret args.

(** ** main, lines 170-186 *)

(** Lines 172-175: the cached index is moved aside when reindexing is asked
    for and the file exists. *)
Definition invalidate_index `{Collaborators} (args : Namespace.t) : M unit :=
  (if Namespace.reindex args then Path_exists cached_index_file else mret false)
  ≫= λ present : bool,
  if present then
    match Path.with_suffix cached_index_file ".bak" with
    | Some bak_file =>
        _ ← log_info ("Invalidate index: " +:+ Path.str cached_index_file
                      +:+ " -> " +:+ Path.str bak_file);
        Path_rename cached_index_file bak_file
    | None => raise (Raised "ValueError" (Path.str cached_index_file))
    end
  else mret ().

(** The branch the [if]/[elif] chain of lines 177-186 takes. *)
Inductive Branch : Type :=
  | BranchList | BranchGet | BranchListExp | BranchReport | BranchElse.

Definition select_branch (task : string) : Branch :=
  if String.eqb task "list" then BranchList
  else if String.eqb task "get" then BranchGet
  else if String.eqb task "list_exp" then BranchListExp
  else if String.eqb task "report" then BranchReport
  else BranchElse.

Definition run_task `{Collaborators} (args : Namespace.t) : M unit :=
  match select_branch (Namespace.task args) with
  | BranchList => list_data (Namespace.langs args) (Namespace.names args)
                    (Namespace.not_names args) (Namespace.full args)
  | BranchGet => get_data args
  | BranchListExp => list_experiments args
  | BranchReport => generate_report (Namespace.langs args) (Namespace.names args)
                      (Namespace.not_names args)
  | BranchElse => raise (Exception (Namespace.task args +:+ " not implemented"))
  end.

Definition main `{Collaborators} (prog : string) (argv : list string) : M unit :=
  args ← parse_args prog argv;
  _ ← invalidate_index args;
  run_task args.

(** ** The record of the specification

    The reproducibility record as section 4.5 of the specification words it:
    the line [mtdata get -l <L1-L2> [-tr <id> ...] [-ts <id> ...] -o <out-dir>]
    followed by the line [mtdata version <version>], over the strings that
    stand for its placeholders. *)
Definition signature_record (pair : string) (train test : list string)
    (out_dir version : string) : string :=
  "mtdata get -l " +:+ pair
  +:+ (match train with [] => EmptyString | _ => " -tr " +:+ Py.join " " train end)
  +:+ (match test with [] => EmptyString | _ => " -ts " +:+ Py.join " " test end)
  +:+ " -o " +:+ out_dir +:+ nl
  +:+ "mtdata version " +:+ version +:+ nl.

(** The name of the signature file inside the output directory. *)
Definition signature_file (out : Path) : Path := out ++ ["mtdata.signature.txt"].

(** [s] occurs in [t]. *)
Definition occurs_in (s t : string) : Prop := ∃ pre post, t = pre +:+ s +:+ post.

(** An event is a catalog query. *)
Definition is_query `{LanguageTags} (ev : Event) : bool :=
  match ev with
  | CallGetEntries _ _ _ _ => true
  | _ => false
  end.

(** The catalog queries of a run, oldest first. *)
Definition queries `{LanguageTags} (r : Run) : list Event :=
  List.filter is_query (trace r).

(** An event stays inside the process: a log line, a line on the console
    or the switch to debug logging. *)
Definition is_console `{LanguageTags} (ev : Event) : bool :=
  match ev with
  | LogInfo _ | SetDebug | Print _ => true
  | _ => false
  end.

(** [r'] continues [r]: the same trace, followed by events that all pass
    [ok]. *)
Definition adds_only `{LanguageTags} (ok : Event → bool) (r r' : Run) : Prop :=
  ∃ evs, trace r' = trace r ++ evs ∧ forallb ok evs = true.

(** A computation adds to the trace only events that pass [ok], however it
    ends. *)
Definition emits_only `{LanguageTags} {A : Type} (ok : Event → bool) (m : M A) : Prop :=
  ∀ r, adds_only ok r (m r).2.

(** A computation leaves every file as it is, however it ends. *)
Definition leaves_files `{LanguageTags} {A : Type} (m : M A) : Prop :=
  ∀ r, files (m r).2 = files r.

(** An event stays inside the process or is a catalog query. *)
Definition is_console_or_query `{LanguageTags} (ev : Event) : bool :=
  is_console ev || is_query ev.

(** [d[key]] on a [defaultdict(int)]: zero for a key that is not there. *)
Fixpoint tally_get (key : string) (d : list (string * nat)) : nat :=
  match d with
  | [] => 0
  | (k, v) :: rest => if String.eqb k key then v else tally_get key rest
  end.

(** The table [generate_report] builds from the keys of the entries, lines
    50-54: one [d[key] += 1] per key, in order. *)
Definition tally (keys : list string) : list (string * nat) :=
  foldl (λ d key, incr key d) [] keys.

(** The line [generate_report] prints for one row of a table, lines 58, 62. *)
Definition report_line `{LanguageTags} (kv : string * nat) : Event :=
  Print ((kv.1 +:+ tab +:+ Py.format_thousands kv.2) +:+ nl).

(** What [list_data] prints for one entry, lines 25-27. *)
Definition entry_lines `{LanguageTags} (full : bool) (ent : Entry.t) : list Event :=
  Print (Entry.format ent tab +:+ nl)
  :: (if full
      then [Print (str_or (Entry.cite ent) "CITATION_NOT_LISTED" +:+ nl +:+ nl)]
      else []).

(** ** A small instance of the collaborators

    Modelled from the spec: a registry of three languages, a catalog of two
    entries and an acquisition that fails with [NotFoundError] on an
    identifier the catalog does not list and otherwise writes one file per
    dataset into the output directory.  It is used to run the front end on
    concrete command lines. *)

Module Demo.

#[export] Instance tags : LanguageTags := {|
  BCP47Tag := string;
  BCP47Tag_str := λ t, t;
  bcp47 := λ code,
    if bool_decide (code ∈ ["de"; "deu"]) then inr "deu"
    else if bool_decide (code ∈ ["en"; "eng"]) then inr "eng"
    else if bool_decide (code ∈ ["fr"; "fra"]) then inr "fra"
    else inl (Raised "LookupError" ("unknown language: " +:+ code)) |}.

Definition catalog_ids : list string :=
  ["Statmt-newstest-2018-deu-eng"; "Statmt-europarl-9-deu-eng"].

Definition catalog : list Entry.t :=
  [ Entry.mk (λ delim, "Statmt-newstest-2018-deu-eng" +:+ delim +:+ "deu-eng")
      None ["deu"; "eng"] "newstest";
    Entry.mk (λ delim, "Statmt-europarl-9-deu-eng" +:+ delim +:+ "deu-eng")
      (Some "@inproceedings{koehn2005europarl}") ["deu"; "eng"] "europarl" ].

Definition name_matches (fuzzy : bool) (names : option (list string))
    (e : Entry.t) : bool :=
  match names with
  | None => true
  | Some ns =>
      existsb (λ n, if fuzzy then Py.startswith n (Entry.name e)
                    else String.eqb n (Entry.name e)) ns
  end.

Definition lookup_entries (langs : option (string * string))
    (names not_names : option (list string)) (fuzzy : bool)
    (fs : gmap (list string) string)
    : (Exc + list Entry.t) * gmap (list string) string :=
  (inr (List.filter (λ e, name_matches fuzzy names e
                          && negb (match not_names with
                                   | Some _ => name_matches fuzzy not_names e
                                   | None => false
                                   end)) catalog), fs).

Definition prepare (langs : option (string * string))
    (train_dids test_dids : option (list DatasetId.t)) (out_dir : option Path)
    (cache_dir : Path) (merge_train : bool) (fs : gmap (list string) string)
    : (Exc + Dataset.t) * gmap (list string) string :=
  match out_dir with
  | None => (inl (Raised "TypeError" "out_dir"), fs)
  | Some out =>
      let ids := default [] train_dids ++ default [] test_dids in
      match List.find (λ d, negb (bool_decide (DatasetId.str d ∈ catalog_ids))) ids with
      | Some d => (inl (Raised "NotFoundError" (DatasetId.str d)), fs)
      | None =>
          (inr (Dataset.mk out),
           foldl (λ fs d, <[out ++ [DatasetId.str d] := "text"]> fs) fs ids)
      end
  end.

#[export] Instance env : Collaborators := {|
  __version__ := "0.2.8";
  CACHE_DIR := ["/"; "home"; "u"; ".mtdata"];
  cached_index_file := ["/"; "home"; "u"; ".mtdata"; "mtdata.index.0.2.8.pkl"];
  DatasetId_check := λ group name version langs,
    if negb (Py.truthy group && Py.truthy name && Py.truthy version)
    then Some (AssertionError "empty field") else None;
  get_entries := lookup_entries;
  Dataset_prepare := prepare |}.

Definition empty_run : Run := mkRun ∅ [].

(** A run that starts with a cached index and an earlier signature. *)
Definition populated_run : Run :=
  mkRun (<[ ["/"; "tmp"; "x"; "mtdata.signature.txt"] := "earlier record" +:+ nl ]>
           {[ cached_index_file := "index" ]}) [].

(** An identifier of the catalog, and one the catalog does not list. *)
Definition newstest2018 : DatasetId.t :=
  DatasetId.mk "Statmt" "newstest" "2018" ("deu", "eng").
Definition newstest2019 : DatasetId.t :=
  DatasetId.mk "Statmt" "newstest" "2019" ("deu", "eng").

(** The namespace of [get -l deu-eng -ts <test_dids> -o /tmp/x]. *)
Definition get_args (test_dids : option (list DatasetId.t)) : Namespace.t :=
  Namespace.mk false false "get" (Some ("deu", "eng")) None None false
    (Some ["/"; "tmp"; "x"]) None test_dids false.

(** The namespace of [-ri list]. *)
Definition reindex_list_args : Namespace.t :=
  Namespace.mk false true "list" None None None false None None None false.

End Demo.

(** * Properties *)

(** ** Splitting and joining *)

Section Split.
Variable sep : ascii.

Lemma split_not_nil (s : string) : Py.split sep s ≠ [].
Proof.
  destruct s as [|a r]; simpl; [done|].
  destruct (Ascii.eqb a sep); [done|].
  by destruct (Py.split sep r).
Qed.

Lemma join_cons_char (a : ascii) (h : string) (t : list string) :
  Py.join (String sep EmptyString) (String a h :: t)
  = String a (Py.join (String sep EmptyString) (h :: t)).
Proof. by destruct t. Qed.

(** Joining the parts of a split gives the string back. *)
Lemma join_split (s : string) :
  Py.join (String sep EmptyString) (Py.split sep s) = s.
Proof.
  induction s as [|a r IH]; simpl; [done|].
  destruct (Ascii.eqb_spec a sep) as [->|Hne].
  - pose proof (split_not_nil r) as Hnil.
    destruct (Py.split sep r) as [|h t] eqn:E; [done|].
    simpl in *. by rewrite IH.
  - destruct (Py.split sep r) as [|h t] eqn:E.
    + by apply split_not_nil in E.
    + by rewrite join_cons_char, IH.
Qed.

(** No part of a split holds the separator. *)
Lemma split_parts_no_sep (s : string) :
  Forall (λ p, Py.contains sep p = false) (Py.split sep s).
Proof.
  induction s as [|a r IH]; simpl.
  - by constructor.
  - destruct (Ascii.eqb_spec a sep) as [->|Hne].
    + by constructor.
    + destruct (Py.split sep r) as [|h t] eqn:E; [by apply split_not_nil in E|].
      inversion IH as [|? ? Hh Ht]; subst.
      constructor; [|done]. simpl.
      destruct (Ascii.eqb_spec a sep); [done|]. by rewrite Hh.
Qed.

(** A first field without the separator is the first part of the split. *)
Lemma split_app_sep (a r : string) :
  Py.contains sep a = false →
  Py.split sep (a +:+ String sep r) = a :: Py.split sep r.
Proof.
  induction a as [|c a IH]; simpl; intros Hc.
  - by rewrite Ascii.eqb_refl.
  - apply orb_false_iff in Hc as [Hc Ha].
    rewrite Hc, (IH Ha). done.
Qed.
End Split.

(** ** Running computations *)

Lemma bind_inr `{LanguageTags} {A B : Type} (m : M A) (f : A → M B)
    (r r' : Run) (a : A) :
  m r = (inr a, r') → (m ≫= f) r = f a r'.
Proof. intros E. unfold mbind, M_bind. by rewrite E. Qed.

Lemma bind_inl `{LanguageTags} {A B : Type} (m : M A) (f : A → M B)
    (r r' : Run) (e : Exc) :
  m r = (inl e, r') → (m ≫= f) r = (inl e, r').
Proof. intros E. unfold mbind, M_bind. by rewrite E. Qed.

(** A bind that returns a value ran both of its parts. *)
Lemma bind_inv `{LanguageTags} {A B : Type} (m : M A) (f : A → M B)
    (r r' : Run) (b : B) :
  (m ≫= f) r = (inr b, r') → ∃ a r1, m r = (inr a, r1) ∧ f a r1 = (inr b, r').
Proof.
  unfold mbind, M_bind. destruct (m r) as [[e|a] r1]; [done|]. eauto.
Qed.

(** ** The parsers *)

Section Parsers.
Context {L : LanguageTags}.

Lemma hyphen_app (a b : string) : a +:+ "-" +:+ b = a +:+ String "-" b.
Proof. reflexivity. Qed.

Lemma std_form_split (s c1 c2 : string) (t1 t2 : BCP47Tag) :
  Py.split "-" s = [c1; c2] → BCP47Tag_str t1 = c1 → BCP47Tag_str t2 = c2 →
  std_form (t1, t2) = s.
Proof.
  intros Hs H1 H2. unfold std_form. cbn [fst snd]. rewrite H1, H2, <- Hs.
  apply (join_split "-").
Qed.

(** C9: on a valid "L1-L2" string whose two codes are canonical (each
    resolves to a tag whose string form is the code itself), [lang_pair]
    returns the pair without logging a suggestion, and parsing the string
    form of the parsed pair gives the same result as parsing the string. *)
Theorem lang_pair_idempotent_on_canonical
    (s c1 c2 : string) (t1 t2 : BCP47Tag) (r : Run) :
  Py.split "-" s = [c1; c2] →
  bcp47 c1 = inr t1 → bcp47 c2 = inr t2 →
  BCP47Tag_str t1 = c1 → BCP47Tag_str t2 = c2 →
  lang_pair s r = (inr (t1, t2), r)
  ∧ (lang_pair s ≫= λ p, lang_pair (std_form p)) r = lang_pair s r.
Proof.
  intros Hs Hb1 Hb2 H1 H2.
  pose proof (std_form_split s c1 c2 t1 t2 Hs H1 H2) as Hstd.
  assert (lang_pair s r = (inr (t1, t2), r)) as Hrun.
  { unfold lang_pair. rewrite Hs.
    unfold mbind, M_bind, lift. rewrite Hb1, Hb2, Hstd.
    rewrite bool_decide_eq_false_2 by (intros Hne; by apply Hne).
    reflexivity. }
  split; [exact Hrun|].
  rewrite (bind_inr _ _ _ _ _ Hrun). by rewrite Hstd.
Qed.

Context {C : Collaborators}.

(** C7: when the stripped input does not split on "-" into exactly five
    parts, [dataset_id] raises [ArgumentTypeError], argparse's format error,
    and nothing else happens; the message holds the five-field template
    and the input as given. *)
Theorem dataset_id_malformed (s : string) (r : Run) :
  length (Py.split "-" (Py.strip s)) ≠ 5 →
  dataset_id s r = (inl (ArgumentTypeError (dataset_id_msg s)), r)
  ∧ expected_format = "<group>-<name>-<version>-<l1>-<l2>"
  ∧ occurs_in expected_format (dataset_id_msg s)
  ∧ occurs_in s (dataset_id_msg s).
Proof.
  intros Hlen. repeat split.
  - unfold dataset_id.
    destruct (Py.split "-" (Py.strip s)) as [|? [|? [|? [|? [|? [|? ?]]]]]];
      simpl in Hlen; try reflexivity.
    by destruct Hlen.
  - exists "Dataset ID expected in format: ". eexists. reflexivity.
  - exists ("Dataset ID expected in format: " +:+ expected_format +:+ "; but given ").
    eexists. reflexivity.
Qed.

(** C8: when [dataset_id] accepts a string, the first three hyphen-separated
    fields of the string form of the identifier it returns are the first
    three fields of the stripped input. *)
Theorem dataset_id_fields_verbatim (s : string) (r r' : Run) (did : DatasetId.t) :
  dataset_id s r = (inr did, r') →
  take 3 (Py.split "-" (DatasetId.str did)) = take 3 (Py.split "-" (Py.strip s)).
Proof.
  unfold dataset_id. intros Hrun.
  pose proof (split_parts_no_sep "-" (Py.strip s)) as Hno.
  destruct (Py.split "-" (Py.strip s)) as [|g [|n [|v [|l1 [|l2 [|? ?]]]]]];
    try discriminate Hrun.
  apply bind_inv in Hrun as (langs & r1 & _ & Hinit).
  unfold DatasetId_init in Hinit.
  destruct (DatasetId_check g n v langs) as [e|].
  { destruct e; discriminate Hinit. }
  injection Hinit as <- _.
  inversion Hno as [|? ? Hg Hno1]; subst.
  inversion Hno1 as [|? ? Hn Hno2]; subst.
  inversion Hno2 as [|? ? Hv _]; subst.
  unfold DatasetId.str. simpl DatasetId.group. simpl DatasetId.name.
  simpl DatasetId.version.
  rewrite !hyphen_app.
  rewrite (split_app_sep "-" g _ Hg), (split_app_sep "-" n _ Hn),
    (split_app_sep "-" v _ Hv).
  reflexivity.
Qed.
End Parsers.

(** ** String append *)

Lemma append_assoc (a b c : string) : (a +:+ b) +:+ c = a +:+ b +:+ c.
Proof.
  induction a as [|x a IH]; [reflexivity|].
  change (String x ((a +:+ b) +:+ c) = String x (a +:+ b +:+ c)).
  by rewrite IH.
Qed.

Lemma append_nil_r (a : string) : a +:+ EmptyString = a.
Proof.
  induction a as [|x a IH]; [reflexivity|].
  change (String x (a +:+ EmptyString) = String x a).
  by rewrite IH.
Qed.

(** ** The get workflow *)

Section Get.
Context {L : LanguageTags} {C : Collaborators}.

Lemma truediv_signature_file (out : Path) :
  Path.truediv out "mtdata.signature.txt" = signature_file out.
Proof. reflexivity. Qed.

Lemma truthy_default_nil {A : Type} (l : option (list A)) :
  truthy l = false → default [] l = [].
Proof. by destruct l as [[|]|]. Qed.

(** The record the code composes is the template of the specification
    over the string forms of the parsed identifiers, with the text
    "<out-dir>" where the template has the output directory. *)
Lemma cli_signature_record (l1 l2 : BCP47Tag)
    (train_dids test_dids : option (list DatasetId.t)) :
  cli_signature [l1; l2] train_dids test_dids
  = signature_record (std_form (l1, l2))
      (DatasetId.str <$> default [] train_dids)
      (DatasetId.str <$> default [] test_dids) "<out-dir>" __version__.
Proof.
  unfold cli_signature, signature_record, std_form. cbn [fst snd fmap list_fmap].
  assert (∀ (flag : string) (ds : option (list DatasetId.t)),
    (if truthy ds then flag +:+ Py.join " " (DatasetId.str <$> default [] ds)
     else EmptyString)
    = match DatasetId.str <$> default [] ds with
      | [] => EmptyString
      | _ => flag +:+ Py.join " " (DatasetId.str <$> default [] ds)
      end) as Hpart.
  { intros flag [[|d ds]|]; reflexivity. }
  rewrite !Hpart.
  set (tr := match DatasetId.str <$> default [] train_dids with
             | [] => EmptyString | _ => _ end).
  set (ts := match DatasetId.str <$> default [] test_dids with
             | [] => EmptyString | _ => _ end).
  rewrite !append_assoc. reflexivity.
Qed.

(** What a run of [get_data] that returns has done. *)
Lemma get_data_returns (args : Namespace.t) (r r' : Run) :
  get_data args r = (inr (), r') →
  ∃ l1 l2 out ds fs1,
    Namespace.langs args = Some (l1, l2) ∧ Namespace.out args = Some out
    ∧ Dataset_prepare (Namespace.langs args) (Namespace.train_dids args)
        (Namespace.test_dids args) (Namespace.out args) CACHE_DIR
        (Namespace.merge args) (files r) = (inr ds, fs1)
    ∧ let record := cli_signature [l1; l2] (Namespace.train_dids args)
                      (Namespace.test_dids args) in
      files r' = <[signature_file out :=
                     default EmptyString (fs1 !! signature_file out) +:+ record]> fs1
      ∧ trace r' = trace r ++
          [ CallPrepare (Namespace.langs args) (Namespace.train_dids args)
              (Namespace.test_dids args) (Namespace.out args) CACHE_DIR
              (Namespace.merge args);
            LogInfo ("Dataset is ready at " +:+ Path.str (Dataset.dir ds));
            LogInfo ("mtdata args for reproducing this dataset:" +:+ nl +:+ " "
                     +:+ record);
            Append (signature_file out) record ].
Proof.
  unfold get_data.
  destruct (negb _); [discriminate|].
  intros Hrun.
  apply bind_inv in Hrun as (ds & r1 & Hprep & Hrun).
  unfold call_Dataset_prepare in Hprep.
  destruct (Dataset_prepare _ _ _ _ _ _ _) as [res fs1] eqn:Eprep.
  injection Hprep as -> <-.
  destruct (Namespace.langs args) as [[l1 l2]|]; [|discriminate Hrun].
  destruct (Namespace.out args) as [out|]; [|discriminate Hrun].
  exists l1, l2, out, ds, fs1.
  rewrite truediv_signature_file in Hrun.
  cbv [mbind M_bind iter_langs mret M_ret log_info emit IO_writer_append_write]
    in Hrun.
  cbn [files trace] in Hrun.
  injection Hrun as <-.
  cbn [files trace]. rewrite <- !app_assoc. done.
Qed.

(** When the acquisition raises, [get_data] raises the same exception and
    adds nothing to what the acquisition did. *)
Lemma get_data_prepare_raises (args : Namespace.t) (r : Run) (e : Exc)
    (fs1 : gmap (list string) string) :
  truthy (Namespace.train_dids args) || truthy (Namespace.test_dids args) = true →
  Dataset_prepare (Namespace.langs args) (Namespace.train_dids args)
    (Namespace.test_dids args) (Namespace.out args) CACHE_DIR
    (Namespace.merge args) (files r) = (inl e, fs1) →
  get_data args r
  = (inl e, mkRun fs1 (trace r ++
       [CallPrepare (Namespace.langs args) (Namespace.train_dids args)
          (Namespace.test_dids args) (Namespace.out args) CACHE_DIR
          (Namespace.merge args)])).
Proof.
  intros Hreq Hprep. unfold get_data. rewrite Hreq. cbn [negb].
  apply bind_inl. unfold call_Dataset_prepare. by rewrite Hprep.
Qed.
End Get.

Section GetClaims.
Context {L : LanguageTags} {C : Collaborators}.

(** C1 (as amended): a [get_data] that returns has appended, as its last
    effect, one record to [<out>/mtdata.signature.txt]: the line
    [mtdata get -l <L1-L2> [-tr <id> ...] [-ts <id> ...] -o <out-dir>] and
    the line [mtdata version <version>], where <L1-L2> is the string form
    of the resolved pair, each <id> is the string form of the parsed
    identifier, [-tr] and [-ts] are present when their list is non-empty,
    <version> is the tool version, and "<out-dir>" is that very text, not
    the directory given with [-o]. *)
Theorem get_data_signature_record (args : Namespace.t) (r r' : Run) :
  get_data args r = (inr (), r') →
  ∃ l1 l2 out prior,
    Namespace.langs args = Some (l1, l2) ∧ Namespace.out args = Some out
    ∧ let record :=
        signature_record (std_form (l1, l2))
          (DatasetId.str <$> default [] (Namespace.train_dids args))
          (DatasetId.str <$> default [] (Namespace.test_dids args))
          "<out-dir>" __version__ in
      last (trace r') = Some (Append (signature_file out) record)
      ∧ files r' !! signature_file out = Some (prior +:+ record).
Proof.
  intros Hrun.
  apply get_data_returns in Hrun
    as (l1 & l2 & out & ds & fs1 & Hl & Ho & _ & Hfiles & Htrace).
  exists l1, l2, out, (default EmptyString (fs1 !! signature_file out)).
  rewrite <- cli_signature_record.
  split; [done|]. split; [done|]. split.
  - rewrite Htrace.
    change [?a; ?b; ?c; ?d] with ([a; b; c] ++ [d]).
    rewrite app_assoc. apply last_snoc.
  - rewrite Hfiles. apply lookup_insert_eq.
Qed.

(** C2 (as amended): when neither the train nor the test identifiers are a
    non-empty list, [get_data] fails its assertion with the message
    "Required --train or --test or both" and has done nothing: the file
    system and the trace are as they were, so no file was written and no
    collaborator was called. *)
Theorem get_data_requires_train_or_test (args : Namespace.t) (r : Run) :
  truthy (Namespace.train_dids args) = false →
  truthy (Namespace.test_dids args) = false →
  get_data args r = (inl (AssertionError "Required --train or --test or both"), r).
Proof. intros Htr Hts. unfold get_data. by rewrite Htr, Hts. Qed.

(** C3: when the acquisition raises, [get_data] raises the same exception,
    and so does the [get] branch of [main]; the file system is the one the
    acquisition left and the only event added to the trace is the call of
    the acquisition, so nothing was appended to the signature file by
    this run. *)
Theorem get_data_no_signature_on_failure (args : Namespace.t) (r : Run)
    (e : Exc) (fs1 : gmap (list string) string) :
  truthy (Namespace.train_dids args) || truthy (Namespace.test_dids args) = true →
  Dataset_prepare (Namespace.langs args) (Namespace.train_dids args)
    (Namespace.test_dids args) (Namespace.out args) CACHE_DIR
    (Namespace.merge args) (files r) = (inl e, fs1) →
  ∃ r',
    get_data args r = (inl e, r')
    ∧ (Namespace.task args = "get" → run_task args r = (inl e, r'))
    ∧ files r' = fs1
    ∧ (∀ p t, Append p t ∈ trace r' → Append p t ∈ trace r).
Proof.
  intros Hreq Hprep.
  pose proof (get_data_prepare_raises args r e fs1 Hreq Hprep) as Hrun.
  eexists. split; [exact Hrun|]. split; [|split].
  - intros Htask. unfold run_task. rewrite Htask. exact Hrun.
  - reflexivity.
  - cbn [trace]. intros p t Hin.
    apply elem_of_app in Hin as [Hin|Hin]; [done|].
    apply list_elem_of_singleton in Hin. discriminate Hin.
Qed.

(** C6: a [get_data] that returns has written the file
    [<out>/mtdata.signature.txt] and no other: its content is what the
    acquisition left there (nothing, when the file did not exist) followed
    by the record.  So a signature file that existed before the run, and
    that the acquisition left alone, keeps its content as a prefix and
    the new record follows it. *)
Theorem get_data_appends_to_signature_file (args : Namespace.t) (r r' : Run) :
  get_data args r = (inr (), r') →
  ∃ out ds fs1 l1 l2,
    Namespace.out args = Some out ∧ Namespace.langs args = Some (l1, l2)
    ∧ Dataset_prepare (Namespace.langs args) (Namespace.train_dids args)
        (Namespace.test_dids args) (Namespace.out args) CACHE_DIR
        (Namespace.merge args) (files r) = (inr ds, fs1)
    ∧ let record := cli_signature [l1; l2] (Namespace.train_dids args)
                      (Namespace.test_dids args) in
      files r' !! signature_file out
        = Some (default EmptyString (fs1 !! signature_file out) +:+ record)
      ∧ (∀ p, p ≠ signature_file out → files r' !! p = fs1 !! p)
      ∧ (∀ old, files r !! signature_file out = Some old →
                fs1 !! signature_file out = files r !! signature_file out →
                files r' !! signature_file out = Some (old +:+ record)).
Proof.
  intros Hrun.
  apply get_data_returns in Hrun
    as (l1 & l2 & out & ds & fs1 & Hl & Ho & Hprep & Hfiles & Htrace).
  exists out, ds, fs1, l1, l2.
  split; [done|]. split; [done|]. split; [done|]. cbn zeta. rewrite Hfiles. repeat split.
  - apply lookup_insert_eq.
  - intros p Hp. by apply lookup_insert_ne.
  - intros old Hold Hsame. rewrite lookup_insert_eq, Hsame, Hold. done.
Qed.
End GetClaims.

(** ** The list and report workflows *)

Section Catalog.
Context {L : LanguageTags} {C : Collaborators}.

Lemma queries_emit (ev : Event) (r : Run) :
  is_query ev = false → queries (emit ev r).2 = queries r.
Proof.
  intros Hev. unfold queries, emit. cbn [snd trace].
  rewrite List.filter_app. cbn [List.filter]. rewrite Hev. apply app_nil_r.
Qed.

Lemma queries_for_each {A : Type} (l : list A) (body : A → M unit) (r : Run) :
  (∀ x r0, queries (body x r0).2 = queries r0) →
  queries (for_each l body r).2 = queries r.
Proof.
  intros Hbody. revert r.
  induction l as [|x l IH]; intros r; cbn [for_each]; [done|].
  unfold mbind, M_bind. specialize (Hbody x r).
  destruct (body x r) as [[e|[]] r1]; cbn [snd] in *; [done|].
  by rewrite IH.
Qed.

Lemma queries_call_get_entries (langs : option LangPair)
    (names not_names : option (list string)) (fuzzy_match : option bool) (r : Run) :
  queries (call_get_entries langs names not_names fuzzy_match r).2
  = queries r ++ [CallGetEntries langs names not_names
                    (default fuzzy_match_default fuzzy_match)].
Proof.
  unfold call_get_entries, queries.
  destruct (get_entries _ _ _ _ _) as [res fs]. cbn [snd trace].
  by rewrite List.filter_app.
Qed.

Lemma queries_print (text : string) (r : Run) : queries (print text r).2 = queries r.
Proof. by apply queries_emit. Qed.

(** C4: whatever the filters, a run of [list_data] makes exactly one catalog
    query, with fuzzy matching on, and a run of [generate_report] with the
    same filters makes exactly one, with the same filters and fuzzy
    matching off. *)
Theorem list_queries_fuzzy_report_does_not (langs : option LangPair)
    (names not_names : option (list string)) (full : bool) (r : Run) :
  queries (list_data langs names not_names full r).2
    = queries r ++ [CallGetEntries langs names not_names true]
  ∧ queries (generate_report langs names not_names r).2
    = queries r ++ [CallGetEntries langs names not_names false].
Proof.
  split.
  - unfold list_data, mbind, M_bind.
    pose proof (queries_call_get_entries langs names not_names (Some true) r) as Hq.
    change (default fuzzy_match_default (Some true)) with true in Hq.
    destruct (call_get_entries _ _ _ _ r) as [[e|entries] r1]; cbn [snd] in *;
      [done|].
    unfold log_info.
    pose proof (queries_emit (LogInfo ("Found " +:+ Py.str_int (length entries))) r1
                  eq_refl) as Hlog.
    destruct (emit _ r1) as [[e|[]] r2]; cbn [snd] in *; [congruence|].
    match goal with
    | |- context [for_each entries ?body r2] =>
        pose proof (queries_for_each entries body r2) as Hloop
    end.
    destruct (for_each entries _ r2) as [[e|[]] r3]; cbn [snd] in *.
    + rewrite Hloop; [congruence|].
      intros x r0. unfold mbind, M_bind.
      pose proof (queries_print (Entry.format x tab) r0) as Hp.
      destruct (print _ r0) as [[e'|[]] r4]; cbn [snd] in *; [done|].
      destruct full; [|done]. rewrite <- Hp. by apply queries_emit.
    + rewrite queries_print, Hloop; [congruence|].
      intros x r0. unfold mbind, M_bind.
      pose proof (queries_print (Entry.format x tab) r0) as Hp.
      destruct (print _ r0) as [[e'|[]] r4]; cbn [snd] in *; [done|].
      destruct full; [|done]. rewrite <- Hp. by apply queries_emit.
  - unfold generate_report, mbind, M_bind.
    pose proof (queries_call_get_entries langs names not_names None r) as Hq.
    destruct (call_get_entries _ _ _ _ r) as [[e|entries] r1]; cbn [snd] in *;
      [done|].
    change (default fuzzy_match_default None) with false in Hq.
    assert (∀ (tbl : list (string * nat)) (r0 : Run),
      queries (for_each tbl
        (λ kv, print (kv.1 +:+ tab +:+ Py.format_thousands kv.2)) r0).2
      = queries r0) as Htbl.
    { intros tbl r0. apply queries_for_each. intros x r4. apply queries_print. }
    pose proof (queries_print "Languages:" r1) as H1.
    destruct (print "Languages:" r1) as [[e|[]] r2]; cbn [snd] in *; [congruence|].
    match goal with
    | |- context [for_each ?tbl ?body r2] => pose proof (Htbl tbl r2) as H2
    end.
    destruct (for_each _ _ r2) as [[e|[]] r3]; cbn [snd] in *; [congruence|].
    pose proof (queries_print (nl +:+ "Names:") r3) as H3.
    destruct (print (nl +:+ "Names:") r3) as [[e|[]] r4]; cbn [snd] in *;
      [congruence|].
    rewrite Htbl. congruence.
Qed.
End Catalog.

(** ** Reindexing *)

Section Reindex.
Context {L : LanguageTags} {C : Collaborators}.

(** A path that has a name gets a ".bak" sibling. *)
Lemma with_suffix_bak (p : Path) :
  Path.name p ≠ EmptyString →
  ∃ stem, Path.with_suffix p ".bak" = Some (Path.parent p ++ [stem +:+ ".bak"]).
Proof.
  intros Hname. unfold Path.with_suffix, Path.parent.
  change (Py.contains "/" ".bak") with false.
  change (Py.truthy ".bak" && negb (Py.startswith "." ".bak")) with false.
  rewrite bool_decide_eq_false_2 by discriminate. cbn [orb].
  destruct (Path.name p) as [|c n] eqn:En; [done|]. cbn [Py.truthy negb].
  destruct (negb (Py.truthy (Path.suffix (String c n)))); eauto.
Qed.

Lemma invalidate_index_skips (args : Namespace.t) (r : Run) :
  Namespace.reindex args = false ∨ files r !! cached_index_file = None →
  invalidate_index args r = (inr (), r).
Proof.
  intros Hskip. unfold invalidate_index, mbind, M_bind.
  destruct (Namespace.reindex args); [|done].
  destruct Hskip as [|Hnone]; [done|].
  unfold Path_exists. rewrite Hnone.
  rewrite bool_decide_eq_false_2; [done|]. by intros [? ?].
Qed.

(** C5: with the reindex flag set and the cached index file present,
    [main] renames the file to a sibling whose name ends in ".bak" and
    logs the rename, before the subcommand runs; the sibling holds what the
    cache file held, and every other file is as it was.  When the cache
    file is absent, or the flag is not set, nothing is renamed or logged. *)
Theorem reindex_renames_cache_file (args : Namespace.t) (r : Run) :
  Path.name cached_index_file ≠ EmptyString →
  (∀ content,
     Namespace.reindex args = true →
     files r !! cached_index_file = Some content →
     ∃ stem r',
       let bak_file := Path.parent cached_index_file ++ [stem +:+ ".bak"] in
       invalidate_index args r = (inr (), r')
       ∧ trace r' = trace r ++
           [ LogInfo ("Invalidate index: " +:+ Path.str cached_index_file
                      +:+ " -> " +:+ Path.str bak_file);
             Rename cached_index_file bak_file ]
       ∧ files r' !! bak_file = Some content
       ∧ (bak_file ≠ cached_index_file → files r' !! cached_index_file = None)
       ∧ (∀ p, p ≠ cached_index_file → p ≠ bak_file →
               files r' !! p = files r !! p)
       ∧ (∀ prog argv r0, parse_args prog argv r0 = (inr args, r) →
                          main prog argv r0 = run_task args r'))
  ∧ (files r !! cached_index_file = None → invalidate_index args r = (inr (), r))
  ∧ (Namespace.reindex args = false → invalidate_index args r = (inr (), r)).
Proof.
  intros Hname. split; [|split].
  - intros content Hflag Hfile.
    destruct (with_suffix_bak cached_index_file Hname) as [stem Hbak].
    exists stem. eexists. cbn zeta.
    assert (invalidate_index args r
            = (inr (), mkRun (<[Path.parent cached_index_file ++ [stem +:+ ".bak"]
                                 := content]> (delete cached_index_file (files r)))
                             (trace r ++
                                [ LogInfo ("Invalidate index: "
                                    +:+ Path.str cached_index_file +:+ " -> "
                                    +:+ Path.str (Path.parent cached_index_file
                                                  ++ [stem +:+ ".bak"]));
                                  Rename cached_index_file
                                    (Path.parent cached_index_file
                                     ++ [stem +:+ ".bak"]) ]))) as Hrun.
    { unfold invalidate_index, mbind, M_bind. rewrite Hflag.
      unfold Path_exists. rewrite Hfile.
      rewrite bool_decide_eq_true_2 by eauto.
      rewrite Hbak. unfold log_info, emit, Path_rename. cbn [files trace].
      rewrite Hfile. by rewrite <- app_assoc. }
    split; [exact Hrun|]. cbn [files trace]. repeat split.
    + apply lookup_insert_eq.
    + intros Hne. rewrite lookup_insert_ne by done. apply lookup_delete_eq.
    + intros p Hp1 Hp2. rewrite lookup_insert_ne by done.
      by rewrite lookup_delete_ne.
    + intros prog argv r0 Hparse. unfold main.
      rewrite (bind_inr _ _ _ _ _ Hparse). by rewrite (bind_inr _ _ _ _ _ Hrun).
  - intros Hnone. apply invalidate_index_skips. by right.
  - intros Hflag. apply invalidate_index_skips. by left.
Qed.
End Reindex.

(** ** The parsed task and the dispatch of main *)

Section Dispatch.
Context {L : LanguageTags} {C : Collaborators}.

Lemma store_const_task (d : Argparse.Dest) (b : bool) (ns : Namespace.t) :
  Namespace.task (Argparse.store_const d b ns) = Namespace.task ns.
Proof. by destruct d. Qed.

Lemma store_star_begin_task (d : Argparse.Dest) (ns : Namespace.t) :
  Namespace.task (Argparse.store_star_begin d ns) = Namespace.task ns.
Proof. by destruct d. Qed.

Lemma store_one_task (d : Argparse.Dest) (v : string) (ns ns' : Namespace.t)
    (r r' : Run) :
  Argparse.store_one d v ns r = (inr ns', r') →
  Namespace.task ns' = Namespace.task ns.
Proof.
  destruct d; cbn [Argparse.store_one]; intros Hrun;
    try (injection Hrun as <- _; reflexivity).
  apply bind_inv in Hrun as (lp & r1 & _ & Hret).
  injection Hret as <- _. reflexivity.
Qed.

Lemma store_star_add_task (d : Argparse.Dest) (v : string) (ns ns' : Namespace.t)
    (r r' : Run) :
  Argparse.store_star_add d v ns r = (inr ns', r') →
  Namespace.task ns' = Namespace.task ns.
Proof.
  destruct d; cbn [Argparse.store_star_add]; intros Hrun;
    try (injection Hrun as <- _; reflexivity);
    apply bind_inv in Hrun as (did & r1 & _ & Hret);
    injection Hret as <- _; reflexivity.
Qed.

(** No option of a subcommand stores into [task]. *)
Lemma parse_sub_task (opts : list Argparse.Opt) (argv : list string)
    (st st' : Argparse.PState) (r r' : Run) :
  Argparse.parse_sub opts argv st r = (inr st', r') →
  Namespace.task (Argparse.ns st') = Namespace.task (Argparse.ns st).
Proof.
  revert st r. induction argv as [|a rest IH]; intros st r; cbn [Argparse.parse_sub].
  - destruct (Argparse.awaits_value st); [discriminate|].
    by injection 1 as <- _.
  - destruct (Argparse.find_opt a opts) as [o|].
    + destruct (Argparse.awaits_value st); [discriminate|].
      destruct (existsb _ _); [discriminate|].
      destruct (Argparse.kind o); [discriminate| | |]; intros Hrun;
        apply IH in Hrun; rewrite Hrun; cbn [Argparse.ns];
        [apply store_const_task | done | apply store_star_begin_task].
    + destruct (Argparse.looks_like_option a).
      * destruct (Argparse.awaits_value st); [discriminate|].
        intros Hrun. by apply IH in Hrun.
      * destruct (Argparse.pending st) as [[d [|]]|]; intros Hrun.
        -- apply bind_inv in Hrun as (ns' & r1 & Hadd & Hrun).
           apply IH in Hrun. rewrite Hrun. cbn [Argparse.ns].
           by apply store_star_add_task in Hadd.
        -- apply bind_inv in Hrun as (ns' & r1 & Hone & Hrun).
           apply IH in Hrun. rewrite Hrun. cbn [Argparse.ns].
           by apply store_one_task in Hone.
        -- by apply IH in Hrun.
Qed.

Lemma find_subparser_name (a : string) (opts : list Argparse.Opt) :
  Argparse.find_subparser a = Some opts → a ∈ ["list"; "get"; "report"].
Proof.
  unfold Argparse.find_subparser, Argparse.subparsers. cbn [List.find fst].
  destruct (String.eqb_spec "list" a) as [<-|_]; [set_solver|].
  destruct (String.eqb_spec "get" a) as [<-|_]; [set_solver|].
  destruct (String.eqb_spec "report" a) as [<-|_]; [set_solver|].
  discriminate.
Qed.

Lemma parse_top_task (prog : string) (argv : list string) (ns0 args : Namespace.t)
    (extras0 : bool) (r r' : Run) :
  Argparse.parse_top prog argv ns0 extras0 r = (inr args, r') →
  Namespace.task args ∈ ["list"; "get"; "report"].
Proof.
  revert ns0 extras0 r.
  induction argv as [|a rest IH]; intros ns0 extras0 r;
    cbn [Argparse.parse_top]; [discriminate|].
  repeat case_bool_decide; try discriminate; try (by apply IH).
  destruct (Argparse.looks_like_option a); [by apply IH|].
  destruct (Argparse.find_subparser a) as [opts|] eqn:Esub; [|discriminate].
  intros Hrun. apply bind_inv in Hrun as (st & r1 & Hsub & Hret).
  destruct (_ || _); [discriminate|]. injection Hret as <- _.
  apply parse_sub_task in Hsub. rewrite Hsub. cbn [Argparse.ns].
  by apply find_subparser_name in Esub.
Qed.

(** C10: the namespace of an argument vector the parser accepts has
    [task] equal to "list", "get" or "report"; so [main] takes the [list],
    the [get] or the [report] branch, never the "list_exp" branch, which
    would call [list_experiments], nor the final [else]. *)
Theorem parsed_task_is_registered (prog : string) (argv : list string)
    (args : Namespace.t) (r r' : Run) :
  parse_args prog argv r = (inr args, r') →
  Namespace.task args ∈ ["list"; "get"; "report"]
  ∧ select_branch (Namespace.task args) ∈ [BranchList; BranchGet; BranchReport]
  ∧ (run_task args = list_data (Namespace.langs args) (Namespace.names args)
                       (Namespace.not_names args) (Namespace.full args)
     ∨ run_task args = get_data args
     ∨ run_task args = generate_report (Namespace.langs args)
                         (Namespace.names args) (Namespace.not_names args)).
Proof.
  intros Hrun. unfold parse_args in Hrun.
  apply bind_inv in Hrun as (args' & r1 & Htop & Hrun).
  apply bind_inv in Hrun as ([] & r2 & _ & Hret). injection Hret as <- _.
  apply parse_top_task in Htop.
  split; [exact Htop|].
  unfold run_task.
  repeat (apply elem_of_cons in Htop as [->|Htop]); [| | |by apply elem_of_nil in Htop];
    cbn; (split; [set_solver|]); auto.
Qed.
End Dispatch.

(** * The front end on concrete command lines *)

Example strip_ex : Py.strip "  a-b c " = "a-b c" ∧ Py.strip (tab +:+ "x" +:+ nl) = "x".
Proof. split; reflexivity. Qed.

Example split_ex :
  Py.split "-" "only-four-fields-here" = ["only"; "four"; "fields"; "here"]
  ∧ Py.split "-" EmptyString = [EmptyString]
  ∧ Py.split "-" "a--" = ["a"; EmptyString; EmptyString].
Proof. repeat split; reflexivity. Qed.

Example join_ex : Py.join "-" ["deu"; "eng"] = "deu-eng".
Proof. reflexivity. Qed.

Example format_thousands_ex :
  Py.format_thousands 4999 = "4,999" ∧ Py.format_thousands 1002 = "1,002"
  ∧ Py.format_thousands 0 = "0" ∧ Py.format_thousands 999 = "999".
Proof. repeat split; vm_compute; reflexivity. Qed.

Example with_suffix_ex :
  Path.with_suffix ["/"; "c"; "mtdata.index.0.2.8.pkl"] ".bak"
    = Some ["/"; "c"; "mtdata.index.0.2.8.bak"]
  ∧ Path.with_suffix ["a"; ".bashrc"] ".bak" = Some ["a"; ".bashrc.bak"]
  ∧ Path.with_suffix ["/"] ".bak" = None.
Proof. repeat split; reflexivity. Qed.

Example of_str_ex : Path.of_str "/tmp//x/./y" = ["/"; "tmp"; "x"; "y"].
Proof. reflexivity. Qed.

(** [get -l de-en -ts Statmt-newstest-2018-de-en -o /tmp/x]: two suggestions
    are logged, and the record names the canonical codes. *)
Example main_get_ex :
  let res := @main Demo.tags Demo.env "mtdata"
               ["get"; "-l"; "de-en"; "-ts"; "Statmt-newstest-2018-de-en";
                "-o"; "/tmp/x"] Demo.empty_run in
  res.1 = inr ()
  ∧ files res.2 !! ["/"; "tmp"; "x"; "mtdata.signature.txt"]
    = Some ("mtdata get -l deu-eng -ts Statmt-newstest-2018-deu-eng -o <out-dir>"
            +:+ nl +:+ "mtdata version 0.2.8" +:+ nl)
  ∧ length (trace res.2) = 6.
Proof. vm_compute. repeat split; reflexivity. Qed.

(** An unknown subcommand is a usage error. *)
Example main_list_exp_ex :
  @main Demo.tags Demo.env "mtdata" ["list_exp"] Demo.empty_run
  = (inl (SystemExit 2), Demo.empty_run).
Proof. vm_compute. reflexivity. Qed.

(** ** Witnesses and counterexamples *)

Lemma lang_pair_idempotent_on_canonical_witness :
  Py.split "-" "deu-eng" = ["deu"; "eng"]
  ∧ @lang_pair Demo.tags "deu-eng" Demo.empty_run
    = (inr ("deu", "eng"), Demo.empty_run)
  ∧ (@lang_pair Demo.tags "deu-eng" ≫= λ p, lang_pair (std_form p))
      Demo.empty_run
    = @lang_pair Demo.tags "deu-eng" Demo.empty_run.
Proof.
  split; [reflexivity|].
  apply (lang_pair_idempotent_on_canonical (L := Demo.tags)
           "deu-eng" "deu" "eng" "deu" "eng" Demo.empty_run); reflexivity.
Defined.

Lemma dataset_id_malformed_witness :
  length (Py.split "-" (Py.strip "only-four-fields-here")) = 4
  ∧ @dataset_id Demo.tags Demo.env "only-four-fields-here" Demo.empty_run
    = (inl (ArgumentTypeError (dataset_id_msg "only-four-fields-here")),
       Demo.empty_run).
Proof.
  split; [reflexivity|].
  apply (dataset_id_malformed (C := Demo.env) "only-four-fields-here" Demo.empty_run).
  vm_compute. discriminate.
Defined.

Lemma dataset_id_fields_verbatim_witness :
  @dataset_id Demo.tags Demo.env " Statmt-newstest-2018-de-en" Demo.empty_run
  = (inr Demo.newstest2018,
     (@dataset_id Demo.tags Demo.env " Statmt-newstest-2018-de-en" Demo.empty_run).2)
  ∧ take 3 (Py.split "-" (DatasetId.str Demo.newstest2018))
    = take 3 (Py.split "-" (Py.strip " Statmt-newstest-2018-de-en")).
Proof.
  assert (@dataset_id Demo.tags Demo.env " Statmt-newstest-2018-de-en" Demo.empty_run
          = (inr Demo.newstest2018,
             (@dataset_id Demo.tags Demo.env " Statmt-newstest-2018-de-en"
                Demo.empty_run).2)) as Hrun by (vm_compute; reflexivity).
  split; [exact Hrun|].
  exact (dataset_id_fields_verbatim (C := Demo.env) _ _ _ _ Hrun).
Defined.

Lemma get_data_signature_record_witness :
  let res := @get_data Demo.tags Demo.env (Demo.get_args (Some [Demo.newstest2018]))
               Demo.populated_run in
  res.1 = inr ()
  ∧ ∃ prior,
      last (trace res.2)
        = Some (Append ["/"; "tmp"; "x"; "mtdata.signature.txt"]
                  (signature_record "deu-eng" [] ["Statmt-newstest-2018-deu-eng"]
                     "<out-dir>" "0.2.8"))
      ∧ files res.2 !! ["/"; "tmp"; "x"; "mtdata.signature.txt"]
        = Some (prior +:+ signature_record "deu-eng" []
                            ["Statmt-newstest-2018-deu-eng"] "<out-dir>" "0.2.8").
Proof.
  cbn zeta.
  set (res := @get_data Demo.tags Demo.env (Demo.get_args (Some [Demo.newstest2018]))
                Demo.populated_run).
  assert (res = (inr (), res.2)) as Hrun by (vm_compute; reflexivity).
  split; [by rewrite Hrun|].
  destruct (get_data_signature_record (C := Demo.env) _ _ _ Hrun)
    as (l1 & l2 & out & prior & Hl & Ho & Hlast & Hfile).
  injection Hl as <- <-. injection Ho as <-.
  exists prior. split; [exact Hlast | exact Hfile].
Defined.

(** C1, as stated, fails on
    [get -l deu-eng -ts Statmt-newstest-2018-de-en -o /tmp/x]: the record
    written is not the template over the identifier as typed and the
    directory given with [-o]; it differs from it in the identifier alone
    and in the directory alone. *)
Lemma signature_record_not_as_stated :
  let res := @main Demo.tags Demo.env "mtdata"
               ["get"; "-l"; "deu-eng"; "-ts"; "Statmt-newstest-2018-de-en";
                "-o"; "/tmp/x"] Demo.empty_run in
  res.1 = inr ()
  ∧ ∃ written,
      files res.2 !! ["/"; "tmp"; "x"; "mtdata.signature.txt"] = Some written
      ∧ written ≠ signature_record "deu-eng" [] ["Statmt-newstest-2018-de-en"]
                    "/tmp/x" "0.2.8"
      ∧ written ≠ signature_record "deu-eng" [] ["Statmt-newstest-2018-de-en"]
                    "<out-dir>" "0.2.8"
      ∧ written ≠ signature_record "deu-eng" [] ["Statmt-newstest-2018-deu-eng"]
                    "/tmp/x" "0.2.8".
Proof.
  vm_compute. split; [reflexivity|].
  eexists. split; [reflexivity|]. repeat split; discriminate.
Qed.

Lemma get_data_requires_train_or_test_witness :
  truthy (Namespace.train_dids (Demo.get_args (Some []))) = false
  ∧ @get_data Demo.tags Demo.env (Demo.get_args (Some [])) Demo.populated_run
    = (inl (AssertionError "Required --train or --test or both"), Demo.populated_run).
Proof.
  split; [reflexivity|].
  apply (get_data_requires_train_or_test (C := Demo.env)); reflexivity.
Defined.

(** C2, as stated, fails on [get -l deu-eng -o /tmp/x]: the exception raised
    does not carry the message "train or test or both required". *)
Lemma usage_message_not_as_stated :
  ∃ e, (@main Demo.tags Demo.env "mtdata" ["get"; "-l"; "deu-eng"; "-o"; "/tmp/x"]
          Demo.empty_run).1 = inl e
       ∧ Exc_str e ≠ "train or test or both required".
Proof. eexists. split; [vm_compute; reflexivity|]. vm_compute. discriminate. Qed.

Lemma get_data_no_signature_on_failure_witness :
  let args := Demo.get_args (Some [Demo.newstest2019]) in
  Demo.prepare (Namespace.langs args) (Namespace.train_dids args)
    (Namespace.test_dids args) (Namespace.out args) (@CACHE_DIR _ Demo.env)
    (Namespace.merge args) (files Demo.populated_run)
  = (inl (Raised "NotFoundError" "Statmt-newstest-2019-deu-eng"),
     files Demo.populated_run)
  ∧ ∃ r', @get_data Demo.tags Demo.env args Demo.populated_run
          = (inl (Raised "NotFoundError" "Statmt-newstest-2019-deu-eng"), r')
          ∧ files r' = files Demo.populated_run.
Proof.
  cbn zeta.
  assert (Demo.prepare (Namespace.langs (Demo.get_args (Some [Demo.newstest2019])))
            (Namespace.train_dids (Demo.get_args (Some [Demo.newstest2019])))
            (Namespace.test_dids (Demo.get_args (Some [Demo.newstest2019])))
            (Namespace.out (Demo.get_args (Some [Demo.newstest2019])))
            (@CACHE_DIR _ Demo.env)
            (Namespace.merge (Demo.get_args (Some [Demo.newstest2019])))
            (files Demo.populated_run)
          = (inl (Raised "NotFoundError" "Statmt-newstest-2019-deu-eng"),
             files Demo.populated_run)) as Hprep by reflexivity.
  split; [exact Hprep|].
  destruct (get_data_no_signature_on_failure (C := Demo.env)
              (Demo.get_args (Some [Demo.newstest2019])) Demo.populated_run
              _ _ eq_refl Hprep) as (r' & Hrun & _ & Hfiles & _).
  exists r'. split; [exact Hrun | exact Hfiles].
Defined.

Lemma get_data_appends_to_signature_file_witness :
  let res := @get_data Demo.tags Demo.env (Demo.get_args (Some [Demo.newstest2018]))
               Demo.populated_run in
  res.1 = inr ()
  ∧ ∃ record,
      files res.2 !! ["/"; "tmp"; "x"; "mtdata.signature.txt"]
      = Some (("earlier record" +:+ nl) +:+ record).
Proof.
  cbn zeta.
  set (res := @get_data Demo.tags Demo.env (Demo.get_args (Some [Demo.newstest2018]))
                Demo.populated_run).
  assert (res = (inr (), res.2)) as Hrun by (vm_compute; reflexivity).
  split; [vm_compute; reflexivity|].
  destruct (get_data_appends_to_signature_file (C := Demo.env) _ _ _ Hrun)
    as (out & ds & fs1 & l1 & l2 & Ho & Hl & Hprep & Hfile & Hother & Hold).
  injection Ho as <-.
  eexists. apply Hold; [vm_compute; reflexivity|].
  assert (@Dataset_prepare _ Demo.env (Some ("deu", "eng")) None
            (Some [Demo.newstest2018]) (Some ["/"; "tmp"; "x"])
            (@CACHE_DIR _ Demo.env) false (files Demo.populated_run)
          = (inr (Dataset.mk ["/"; "tmp"; "x"]),
             <[ ["/"; "tmp"; "x"; "Statmt-newstest-2018-deu-eng"] := "text" ]>
               (files Demo.populated_run))) as Hdemo by reflexivity.
  pose proof (eq_trans (eq_sym Hdemo) Hprep) as Heq.
  injection Heq as _ <-.
  apply lookup_insert_ne. discriminate.
Defined.

Lemma reindex_renames_cache_file_witness :
  Path.name (@cached_index_file _ Demo.env) ≠ EmptyString
  ∧ ∃ stem r',
      @invalidate_index Demo.tags Demo.env Demo.reindex_list_args Demo.populated_run
      = (inr (), r')
      ∧ files r' !! (Path.parent (@cached_index_file _ Demo.env) ++ [stem +:+ ".bak"])
        = Some "index"
      ∧ files r' !! ["/"; "tmp"; "x"; "mtdata.signature.txt"]
        = files Demo.populated_run !! ["/"; "tmp"; "x"; "mtdata.signature.txt"].
Proof.
  assert (Path.name (@cached_index_file _ Demo.env) ≠ EmptyString) as Hname
    by (vm_compute; discriminate).
  split; [exact Hname|].
  destruct (reindex_renames_cache_file (C := Demo.env) Demo.reindex_list_args
              Demo.populated_run Hname) as [Hren _].
  assert (files Demo.populated_run !! @cached_index_file _ Demo.env = Some "index")
    as Hfile by (vm_compute; reflexivity).
  destruct (Hren "index" eq_refl Hfile) as (stem & r' & Hrun & _ & Hbak & _ & Hother & _).
  exists stem, r'. split; [exact Hrun|]. split; [exact Hbak|].
  apply Hother; [discriminate|].
  intros Heq. apply (f_equal length) in Heq. discriminate Heq.
Defined.

Lemma parsed_task_is_registered_witness :
  let res := @parse_args Demo.tags Demo.env "mtdata"
               ["-ri"; "report"; "-l"; "de-en"; "-n"; "europarl"] Demo.empty_run in
  (∃ args, res = (inr args, res.2) ∧ Namespace.task args = "report")
  ∧ select_branch "report" ∈ [BranchList; BranchGet; BranchReport].
Proof.
  cbn zeta.
  set (res := @parse_args Demo.tags Demo.env "mtdata"
                ["-ri"; "report"; "-l"; "de-en"; "-n"; "europarl"] Demo.empty_run).
  assert (res = (inr (@Namespace.mk Demo.tags false true "report"
                        (Some ("deu", "eng")) (Some ["europarl"]) None false None
                        None None false), res.2))
    as Hrun by (vm_compute; reflexivity).
  split; [eexists; split; [exact Hrun | reflexivity]|].
  destruct (parsed_task_is_registered (C := Demo.env) _ _ _ _ _ Hrun) as (_ & Hbranch & _).
  exact Hbranch.
Defined.

(** * Further properties of the front end *)

(** ** Stripping and splitting *)

Lemma lstrip_head (s : string) :
  Py.lstrip s = EmptyString
  ∨ ∃ c r, Py.lstrip s = String c r ∧ Py.isspace c = false.
Proof.
  induction s as [|c r IH]; [by left|]. cbn [Py.lstrip].
  destruct (Py.isspace c) eqn:Ec; [exact IH|]. right. eauto.
Qed.

Lemma rstrip_cons (c : ascii) (r : string) :
  Py.rstrip (String c r)
  = match Py.rstrip r with
    | EmptyString => if Py.isspace c then EmptyString else String c EmptyString
    | String d r' => String c (String d r')
    end.
Proof. reflexivity. Qed.

Lemma rstrip_idempotent (s : string) : Py.rstrip (Py.rstrip s) = Py.rstrip s.
Proof.
  induction s as [|c r IH]; [done|]. rewrite rstrip_cons.
  destruct (Py.rstrip r) as [|d r'] eqn:Er.
  - destruct (Py.isspace c) eqn:Ec; [done|]. rewrite rstrip_cons.
    cbn [Py.rstrip]. by rewrite Ec.
  - by rewrite rstrip_cons, IH.
Qed.

Lemma rstrip_keeps_head (c : ascii) (r : string) :
  Py.isspace c = false → ∃ r', Py.rstrip (String c r) = String c r'.
Proof.
  intros Ec. rewrite rstrip_cons. destruct (Py.rstrip r); [rewrite Ec|]; eauto.
Qed.

(** Stripping a stripped string changes nothing. *)
Lemma strip_idempotent (s : string) : Py.strip (Py.strip s) = Py.strip s.
Proof.
  unfold Py.strip.
  destruct (lstrip_head s) as [->|(c & r & -> & Ec)]; [done|].
  destruct (rstrip_keeps_head c r Ec) as [r' Hr]. rewrite Hr.
  cbn [Py.lstrip]. rewrite Ec, <- Hr. apply rstrip_idempotent.
Qed.

Lemma split_no_sep (sep : ascii) (a : string) :
  Py.contains sep a = false → Py.split sep a = [a].
Proof.
  induction a as [|c a IH]; [done|]. cbn [Py.contains Py.split]. intros Hc.
  apply orb_false_iff in Hc as [-> Ha]. by rewrite (IH Ha).
Qed.

(** Two fields without a hyphen, joined by one, split into the two. *)
Lemma split_two_fields (a b : string) :
  Py.contains "-" a = false → Py.contains "-" b = false →
  Py.split "-" (a +:+ "-" +:+ b) = [a; b].
Proof.
  intros Ha Hb. change (a +:+ "-" +:+ b) with (a +:+ String "-" b).
  by rewrite (split_app_sep "-" a b Ha), (split_no_sep "-" b Hb).
Qed.

Lemma five_fields_no_hyphen (s g n v l1 l2 : string) :
  Py.split "-" s = [g; n; v; l1; l2] →
  Py.contains "-" g = false ∧ Py.contains "-" n = false
  ∧ Py.contains "-" v = false ∧ Py.contains "-" l1 = false
  ∧ Py.contains "-" l2 = false.
Proof.
  intros Hs. pose proof (split_parts_no_sep "-" s) as Hno. rewrite Hs in Hno.
  repeat (apply Forall_cons in Hno as [? Hno]). done.
Qed.

(** ** lang_pair, lines 77-87 *)

Section LangPair.
Context {L : LanguageTags}.

(** What [lang_pair] does with a string of two parts that both resolve. *)
Lemma lang_pair_two_parts (s c1 c2 : string) (t1 t2 : BCP47Tag) (r : Run) :
  Py.split "-" s = [c1; c2] → bcp47 c1 = inr t1 → bcp47 c2 = inr t2 →
  lang_pair s r
  = (inr (t1, t2),
     if bool_decide (std_form (t1, t2) ≠ s)
     then mkRun (files r)
            (trace r ++ [LogInfo ("Suggestion: Use codes " +:+ std_form (t1, t2)
               +:+ " instead of " +:+ s +:+ "."
               +:+ " Let's make a little space for all languages of our planet 😢.")])
     else r).
Proof.
  intros Hs H1 H2. unfold lang_pair. rewrite Hs.
  unfold mbind, M_bind, lift. rewrite H1, H2.
  by destruct (bool_decide (std_form (t1, t2) ≠ s)).
Qed.

(** X1: a string that splits on "-" into two parts that both resolve is
    accepted whatever its spelling: the result is the pair of the resolved
    tags and no file is touched.  When the canonical form of the pair is the
    string itself nothing is logged; otherwise exactly one line is logged,
    which holds the canonical form and the string as given. *)
Theorem lang_pair_resolves_and_suggests
    (s c1 c2 : string) (t1 t2 : BCP47Tag) (r : Run) :
  Py.split "-" s = [c1; c2] → bcp47 c1 = inr t1 → bcp47 c2 = inr t2 →
  ∃ r',
    lang_pair s r = (inr (t1, t2), r')
    ∧ files r' = files r
    ∧ (std_form (t1, t2) = s → r' = r)
    ∧ (std_form (t1, t2) ≠ s →
       ∃ msg, trace r' = trace r ++ [LogInfo msg]
              ∧ occurs_in (std_form (t1, t2)) msg ∧ occurs_in s msg).
Proof.
  intros Hs H1 H2. eexists. split; [by apply (lang_pair_two_parts s c1 c2)|].
  case_bool_decide as Hstd.
  - cbn [files trace]. repeat split; [done|].
    intros _. eexists. split; [reflexivity|]. split.
    + exists "Suggestion: Use codes ". eexists. reflexivity.
    + exists ("Suggestion: Use codes " +:+ std_form (t1, t2) +:+ " instead of ").
      eexists. rewrite !append_assoc. reflexivity.
  - split; [done|]. split; [done|]. intros Hne. by destruct Hne.
Qed.

(** X2: when [lang_pair] raises, nothing was logged and the run is as it
    was.  Either the string does not split into two parts, and the
    exception is the format error that quotes the expected form and the
    string; or it is the exception the resolver raised on the first part,
    or on the second after the first resolved. *)
Theorem lang_pair_raises_unchanged (s : string) (e : Exc) (r r' : Run) :
  lang_pair s r = (inl e, r') →
  r' = r
  ∧ ((length (Py.split "-" s) ≠ 2
      ∧ e = ArgumentTypeError ("expected value of form " +:+ dq +:+ "xxx-yyz" +:+ dq
              +:+ " eg " +:+ dq +:+ "deu-eng" +:+ dq +:+ "; given " +:+ s))
     ∨ ∃ c1 c2, Py.split "-" s = [c1; c2]
         ∧ (bcp47 c1 = inl e ∨ ∃ t1, bcp47 c1 = inr t1 ∧ bcp47 c2 = inl e)).
Proof.
  unfold lang_pair.
  destruct (Py.split "-" s) as [|c1 [|c2 [|? ?]]] eqn:Hs;
    try (intros Hrun; injection Hrun as <- <-; split; [done|]; left;
         split; [cbn; lia | reflexivity]).
  unfold mbind, M_bind, lift.
  destruct (bcp47 c1) as [e1|t1] eqn:H1.
  { intros Hrun. injection Hrun as <- <-. split; [done|]. right. eauto. }
  destruct (bcp47 c2) as [e2|t2] eqn:H2.
  { intros Hrun. injection Hrun as <- <-. split; [done|]. right.
    exists c1, c2. eauto. }
  by destruct (bool_decide _).
Qed.
End LangPair.

(** ** dataset_id, lines 90-102 *)

Section DatasetIdParser.
Context {L : LanguageTags} {C : Collaborators}.

(** On five fields, [dataset_id] is [lang_pair] on fields four and five
    followed by the constructor. *)
Lemma dataset_id_five_fields (s g n v l1 l2 : string) (r : Run) :
  Py.split "-" (Py.strip s) = [g; n; v; l1; l2] →
  dataset_id s r
  = match lang_pair (l1 +:+ "-" +:+ l2) r with
    | (inl e, r1) => (inl e, r1)
    | (inr langs, r1) =>
        match DatasetId_check g n v langs with
        | None => (inr (DatasetId.mk g n v langs), r1)
        | Some (SystemExit c) => (inl (SystemExit c), r1)
        | Some e0 => (inl (ArgumentTypeError (Exc_str e0)), r1)
        end
    end.
Proof.
  intros Hs. unfold dataset_id. rewrite Hs. unfold mbind, M_bind.
  destruct (lang_pair _ r) as [[e|langs] r1]; [done|].
  unfold DatasetId_init. destruct (DatasetId_check g n v langs) as [[]|]; done.
Qed.

(** X3: an identifier of five fields whose two language codes resolve and
    whose constructor accepts the fields is accepted: the result holds the
    first three fields as they are and the resolved pair, and no file is
    touched.  Fields four and five, joined again by a hyphen, always pass
    the two-part check of [lang_pair]. *)
Theorem dataset_id_accepts (s g n v l1 l2 : string) (t1 t2 : BCP47Tag) (r : Run) :
  Py.split "-" (Py.strip s) = [g; n; v; l1; l2] →
  bcp47 l1 = inr t1 → bcp47 l2 = inr t2 →
  DatasetId_check g n v (t1, t2) = None →
  ∃ r',
    dataset_id s r = (inr (DatasetId.mk g n v (t1, t2)), r')
    ∧ lang_pair (l1 +:+ "-" +:+ l2) r = (inr (t1, t2), r')
    ∧ files r' = files r.
Proof.
  intros Hs H1 H2 Hcheck.
  destruct (five_fields_no_hyphen _ _ _ _ _ _ Hs) as (_ & _ & _ & Hl1 & Hl2).
  pose proof (lang_pair_two_parts _ l1 l2 t1 t2 r (split_two_fields l1 l2 Hl1 Hl2)
                H1 H2) as Hlp.
  eexists. split; [|split; [exact Hlp|]].
  - rewrite (dataset_id_five_fields s g n v l1 l2 r Hs), Hlp, Hcheck. reflexivity.
  - by destruct (bool_decide _).
Qed.


(** X5: white space around a five-field identifier does not matter: the
    stripped string is parsed exactly as the string. *)
Theorem dataset_id_ignores_outer_whitespace (s : string) (r : Run) :
  length (Py.split "-" (Py.strip s)) = 5 →
  dataset_id (Py.strip s) r = dataset_id s r.
Proof.
  intros Hlen.
  destruct (Py.split "-" (Py.strip s)) as [|g [|n [|v [|l1 [|l2 [|? ?]]]]]] eqn:Hs;
    try discriminate Hlen.
  rewrite (dataset_id_five_fields s g n v l1 l2 r Hs).
  apply dataset_id_five_fields. by rewrite strip_idempotent.
Qed.

(** What an accepted identifier was made of. *)
Lemma dataset_id_returns (s : string) (did : DatasetId.t) (r r' : Run) :
  dataset_id s r = (inr did, r') →
  ∃ g n v l1 l2,
    Py.split "-" (Py.strip s) = [g; n; v; l1; l2]
    ∧ did = DatasetId.mk g n v (DatasetId.langs did)
    ∧ DatasetId_check g n v (DatasetId.langs did) = None.
Proof.
  intros Hrun.
  destruct (Py.split "-" (Py.strip s)) as [|g [|n [|v [|l1 [|l2 [|? ?]]]]]] eqn:Hs;
    try (unfold dataset_id in Hrun; rewrite Hs in Hrun; discriminate Hrun).
  rewrite (dataset_id_five_fields s g n v l1 l2 r Hs) in Hrun.
  destruct (lang_pair _ r) as [[e|langs] r1]; [discriminate|].
  destruct (DatasetId_check g n v langs) as [e0|] eqn:Hcheck.
  { destruct e0; discriminate Hrun. }
  injection Hrun as <- _. exists g, n, v, l1, l2. done.
Qed.

(** X6: the string form of an accepted identifier parses back to the same
    identifier, with nothing logged, provided the string forms of its two
    tags resolve to the tags themselves and hold no hyphen, and the string
    form has no white space at its ends. *)
Theorem dataset_id_reparses_its_string (s : string) (did : DatasetId.t) (r r' r0 : Run) :
  dataset_id s r = (inr did, r') →
  bcp47 (BCP47Tag_str (DatasetId.langs did).1) = inr (DatasetId.langs did).1 →
  bcp47 (BCP47Tag_str (DatasetId.langs did).2) = inr (DatasetId.langs did).2 →
  Py.contains "-" (BCP47Tag_str (DatasetId.langs did).1) = false →
  Py.contains "-" (BCP47Tag_str (DatasetId.langs did).2) = false →
  Py.strip (DatasetId.str did) = DatasetId.str did →
  dataset_id (DatasetId.str did) r0 = (inr did, r0).
Proof.
  intros Hrun H1 H2 Hno1 Hno2 Hstrip.
  destruct (dataset_id_returns s did r r' Hrun) as (g & n & v & l1 & l2 & Hs & Hdid & Hcheck).
  destruct (five_fields_no_hyphen _ _ _ _ _ _ Hs) as (Hg & Hn & Hv & _ & _).
  destruct (DatasetId.langs did) as [t1 t2] eqn:Hlangs. cbn [fst snd] in *.
  assert (Py.split "-" (Py.strip (DatasetId.str did))
          = [g; n; v; BCP47Tag_str t1; BCP47Tag_str t2]) as Hsplit.
  { rewrite Hstrip, Hdid. unfold DatasetId.str.
    cbn [DatasetId.group DatasetId.name DatasetId.version DatasetId.langs fst snd].
    rewrite !hyphen_app.
    rewrite (split_app_sep "-" g _ Hg), (split_app_sep "-" n _ Hn),
      (split_app_sep "-" v _ Hv), <- hyphen_app.
    by rewrite (split_two_fields _ _ Hno1 Hno2). }
  rewrite (dataset_id_five_fields _ _ _ _ _ _ r0 Hsplit).
  rewrite (lang_pair_two_parts _ _ _ t1 t2 r0 (split_two_fields _ _ Hno1 Hno2) H1 H2).
  rewrite Hcheck, Hdid.
  rewrite bool_decide_eq_false_2; [done|].
  intros Hne. by apply Hne.
Qed.
End DatasetIdParser.

(** ** Loops that only print *)

Section Loops.
Context {L : LanguageTags}.

Lemma run_eta (r : Run) : mkRun (files r) (trace r) = r.
Proof. by destruct r. Qed.

(** A loop whose body only adds events adds them entry by entry. *)
Lemma for_each_emits {A : Type} (l : list A) (body : A → M unit)
    (out : A → list Event) (r : Run) :
  (∀ x r0, body x r0 = (inr (), mkRun (files r0) (trace r0 ++ out x))) →
  for_each l body r = (inr (), mkRun (files r) (trace r ++ flat_map out l)).
Proof.
  intros Hbody. revert r.
  induction l as [|x l IH]; intros r; cbn [for_each flat_map].
  - unfold mret, M_ret. by rewrite app_nil_r, run_eta.
  - unfold mbind, M_bind. rewrite Hbody, IH. cbn [files trace].
    by rewrite app_assoc.
Qed.
End Loops.

(** ** list_data, lines 20-28 *)

Section ListData.
Context {L : LanguageTags} {C : Collaborators}.

(** X7: [list_data] asks the catalog once, with fuzzy matching.  When the
    query returns entries, it logs how many there are, prints for each entry,
    in the order of the catalog, its tab-separated summary (followed, when
    the full listing is asked for, by its citation or CITATION_NOT_LISTED
    and an empty line), and ends with the total; it writes no file of its
    own.  When the query raises, the exception is passed on and nothing is
    logged or printed. *)
Theorem list_data_output (langs : option LangPair)
    (names not_names : option (list string)) (full : bool) (r : Run) :
  (∀ entries fs,
     get_entries langs names not_names true (files r) = (inr entries, fs) →
     list_data langs names not_names full r
     = (inr (), mkRun fs
         (trace r ++
            CallGetEntries langs names not_names true
            :: LogInfo ("Found " +:+ Py.str_int (length entries))
            :: flat_map (entry_lines full) entries
            ++ [Print (("Total " +:+ Py.str_int (length entries) +:+ " entries")
                       +:+ nl)])))
  ∧ (∀ e fs,
       get_entries langs names not_names true (files r) = (inl e, fs) →
       list_data langs names not_names full r
       = (inl e, mkRun fs (trace r ++ [CallGetEntries langs names not_names true]))).
Proof.
  split.
  - intros entries fs Hq. unfold list_data.
    rewrite (bind_inr _ _ r (mkRun fs (trace r ++
               [CallGetEntries langs names not_names true])) entries).
    2: { unfold call_get_entries. cbv zeta.
         change (default fuzzy_match_default (Some true)) with true.
         by rewrite Hq. }
    unfold mbind at 1, M_bind at 1. unfold log_info at 1, emit at 1.
    cbn [files trace].
    unfold mbind at 1, M_bind at 1.
    rewrite (for_each_emits entries _ (entry_lines full)).
    + cbn [files trace]. unfold print, print_end, emit. cbn [files trace].
      by rewrite <- !app_assoc.
    + intros ent r0. unfold entry_lines, mbind, M_bind, print, print_end, emit.
      cbn [files trace]. destruct full.
      * cbn [files trace]. by rewrite <- app_assoc.
      * unfold mret, M_ret. reflexivity.
  - intros e fs Hq. unfold list_data. apply bind_inl.
    unfold call_get_entries. cbv zeta.
    change (default fuzzy_match_default (Some true)) with true.
    by rewrite Hq.
Qed.
End ListData.

(** ** The tables of generate_report, lines 50-54 *)

Lemma tally_snoc (keys : list string) (k : string) :
  tally (keys ++ [k]) = incr k (tally keys).
Proof. unfold tally. by rewrite foldl_app. Qed.

Lemma incr_get_same (k : string) (d : list (string * nat)) :
  tally_get k (incr k d) = S (tally_get k d).
Proof.
  induction d as [|[k' v] d IH]; cbn [incr tally_get].
  - by rewrite String.eqb_refl.
  - destruct (String.eqb k' k) eqn:E; cbn [tally_get]; by rewrite E.
Qed.

Lemma incr_get_other (k k' : string) (d : list (string * nat)) :
  k' ≠ k → tally_get k' (incr k d) = tally_get k' d.
Proof.
  intros Hne. induction d as [|[k0 v] d IH]; cbn [incr tally_get].
  - destruct (String.eqb_spec k k'); [by subst|done].
  - destruct (String.eqb_spec k0 k) as [->|Hk0]; cbn [tally_get].
    + destruct (String.eqb_spec k k'); [by subst|done].
    + by rewrite IH.
Qed.

(** A new key goes last; a known key keeps its place. *)
Lemma incr_keys (k : string) (d : list (string * nat)) :
  (incr k d).*1 = if decide (k ∈ d.*1) then d.*1 else d.*1 ++ [k].
Proof.
  induction d as [|[k' v] d IH]; cbn [incr].
  - rewrite decide_False; [done|]. apply not_elem_of_nil.
  - destruct (String.eqb_spec k' k) as [->|Hne]; rewrite !fmap_cons; cbn [fst].
    + rewrite decide_True; [done|]. apply elem_of_cons. by left.
    + rewrite IH. destruct (decide (k ∈ d.*1)) as [Hin|Hnin].
      * rewrite decide_True; [done|]. apply elem_of_cons. by right.
      * rewrite decide_False; [done|].
        intros Hin. apply elem_of_cons in Hin as [->|Hin]; done.
Qed.

Lemma tally_get_count (keys : list string) (k : string) :
  tally_get k (tally keys) = length (filter (λ x, x = k) keys).
Proof.
  induction keys as [|k0 keys IH] using rev_ind; [done|].
  rewrite tally_snoc, filter_app, length_app.
  destruct (decide (k0 = k)) as [->|Hne].
  - rewrite incr_get_same, IH, filter_cons_True by done. cbn. lia.
  - rewrite incr_get_other, IH, filter_cons_False by done. cbn. lia.
Qed.

Lemma tally_keys_elem (keys : list string) (k : string) :
  k ∈ (tally keys).*1 ↔ k ∈ keys.
Proof.
  induction keys as [|k0 keys IH] using rev_ind.
  - cbn. split; intros H; by apply elem_of_nil in H.
  - rewrite tally_snoc, incr_keys, elem_of_app, list_elem_of_singleton.
    destruct (decide (k0 ∈ (tally keys).*1)) as [Hin|Hnin].
    + rewrite IH. split; [tauto|]. intros [?| ->]; [done|]. by apply IH.
    + rewrite elem_of_app, list_elem_of_singleton, IH. done.
Qed.

Lemma tally_keys_NoDup (keys : list string) : NoDup (tally keys).*1.
Proof.
  induction keys as [|k0 keys IH] using rev_ind; [constructor|].
  rewrite tally_snoc, incr_keys.
  destruct (decide (k0 ∈ (tally keys).*1)) as [Hin|Hnin]; [done|].
  apply NoDup_app. split; [done|]. split; [|apply NoDup_singleton].
  intros x Hx Hx0. apply list_elem_of_singleton in Hx0. by subst.
Qed.

(** In a table without repeated keys, a row holds what a lookup gives. *)
Lemma tally_get_row (d : list (string * nat)) (k : string) (n : nat) :
  NoDup d.*1 → (k, n) ∈ d ↔ (k ∈ d.*1 ∧ n = tally_get k d).
Proof.
  induction d as [|[k0 v] d IH]; intros Hnd.
  - split; [intros H; by apply elem_of_nil in H|].
    intros [H _]. by apply elem_of_nil in H.
  - rewrite fmap_cons in Hnd |- *. cbn [fst] in *.
    apply NoDup_cons in Hnd as [Hk0 Hnd]. cbn [tally_get].
    rewrite !elem_of_cons, (IH Hnd).
    destruct (String.eqb_spec k0 k) as [->|Hne].
    + split.
      * intros [Heq|[Hin _]]; [|done]. injection Heq as ->. split; [by left|done].
      * intros [_ ->]. by left.
    + split.
      * intros [Heq|[Hin ->]]; [by injection Heq as -> ->|].
        split; [by right|done].
      * intros [[->|Hin] ->]; [done|]. right. done.
Qed.

Lemma incr_total (k : string) (d : list (string * nat)) :
  sum_list (incr k d).*2 = S (sum_list d.*2).
Proof.
  induction d as [|[k' v] d IH]; cbn [incr]; [done|].
  destruct (String.eqb k' k); rewrite !fmap_cons; cbn [snd sum_list]; [done|].
  rewrite IH. lia.
Qed.

(** X8: the table built from the keys has one row per distinct key; the
    count of a key is the number of times it occurs; and the counts add up
    to the number of keys. *)
Theorem tally_counts (keys : list string) :
  NoDup (tally keys).*1
  ∧ (∀ k n, (k, n) ∈ tally keys
            ↔ k ∈ keys ∧ n = length (filter (λ x, x = k) keys))
  ∧ sum_list (tally keys).*2 = length keys.
Proof.
  split; [apply tally_keys_NoDup|]. split.
  - intros k n. rewrite (tally_get_row _ _ _ (tally_keys_NoDup keys)).
    by rewrite tally_keys_elem, tally_get_count.
  - induction keys as [|k0 keys IH] using rev_ind; [done|].
    rewrite tally_snoc, incr_total, IH, length_app. cbn. lia.
Qed.

(** X9: the rows of the table come in the order in which the keys were
    first seen, and reading more keys never reorders the rows there are:
    the keys of the table of a prefix are a prefix of the keys of the
    table. *)
Theorem tally_first_seen_order (keys more : list string) :
  (tally keys).*1 = reverse (remove_dups (reverse keys))
  ∧ (tally keys).*1 `prefix_of` (tally (keys ++ more)).*1.
Proof.
  split.
  - induction keys as [|k0 keys IH] using rev_ind; [done|].
    rewrite tally_snoc, incr_keys, reverse_snoc. cbn [remove_dups].
    destruct (decide (k0 ∈ (tally keys).*1)) as [Hin|Hnin];
      destruct (decide_rel elem_of k0 (reverse keys)) as [Hr|Hr].
    + done.
    + destruct Hr. apply elem_of_reverse_2. by apply tally_keys_elem.
    + destruct Hnin. apply tally_keys_elem.
      exact (proj1 (elem_of_reverse k0 keys) Hr).
    + by rewrite reverse_cons, IH.
  - induction more as [|k0 more IH] using rev_ind.
    + by rewrite app_nil_r.
    + rewrite app_assoc, tally_snoc, incr_keys.
      destruct (decide _); [done|]. by apply prefix_app_r.
Qed.

(** ** generate_report, lines 47-62 *)

Section Report.
Context {L : LanguageTags} {C : Collaborators}.

Lemma foldl_incr_keys {A : Type} (f : A → string) (l : list A)
    (d : list (string * nat)) :
  foldl (λ d x, incr (f x) d) d l = foldl (λ d key, incr key d) d (f <$> l).
Proof. revert d. induction l as [|x l IH]; intros d; [done|]. apply IH. Qed.

Lemma flat_map_singleton {A B : Type} (f : A → B) (l : list A) :
  flat_map (λ x, [f x]) l = f <$> l.
Proof. induction l as [|x l IH]; [done|]. cbn. by rewrite IH. Qed.

(** X10: [generate_report] asks the catalog once, without fuzzy matching,
    and writes no file of its own.  When the query returns entries it prints
    the heading "Languages:", one line per row of the table of the
    underscore-joined language tuples, the heading "Names:" after an empty
    line, and one line per row of the table of the names; each line is the
    key, a tab and the count with thousands separators.  When the query
    raises, the exception is passed on and nothing is printed. *)
Theorem generate_report_output (langs : option LangPair)
    (names not_names : option (list string)) (r : Run) :
  (∀ entries fs,
     get_entries langs names not_names false (files r) = (inr entries, fs) →
     generate_report langs names not_names r
     = (inr (), mkRun fs
         (trace r ++
            CallGetEntries langs names not_names false
            :: Print ("Languages:" +:+ nl)
            :: (report_line <$> tally ((λ ent, Py.join "_" (Entry.langs ent))
                                         <$> entries))
            ++ Print ((nl +:+ "Names:") +:+ nl)
            :: (report_line <$> tally (Entry.name <$> entries)))))
  ∧ (∀ e fs,
       get_entries langs names not_names false (files r) = (inl e, fs) →
       generate_report langs names not_names r
       = (inl e, mkRun fs (trace r ++ [CallGetEntries langs names not_names false]))).
Proof.
  assert (∀ (tbl : list (string * nat)) (r0 : Run),
    for_each tbl (λ kv, print (kv.1 +:+ tab +:+ Py.format_thousands kv.2)) r0
    = (inr (), mkRun (files r0) (trace r0 ++ (report_line <$> tbl)))) as Htbl.
  { intros tbl r0. rewrite <- flat_map_singleton. by apply for_each_emits. }
  split.
  - intros entries fs Hq. unfold generate_report.
    rewrite (bind_inr _ _ r (mkRun fs (trace r ++
               [CallGetEntries langs names not_names false])) entries).
    2: { unfold call_get_entries. cbv zeta.
         change (default fuzzy_match_default None) with false.
         by rewrite Hq. }
    cbv zeta.
    rewrite (foldl_incr_keys Entry.name entries),
      (foldl_incr_keys (λ ent, Py.join "_" (Entry.langs ent)) entries).
    fold (tally (Entry.name <$> entries)).
    fold (tally ((λ ent, Py.join "_" (Entry.langs ent)) <$> entries)).
    unfold mbind at 1, M_bind at 1. unfold print at 1, print_end at 1, emit at 1.
    cbn [files trace].
    unfold mbind at 1, M_bind at 1. rewrite Htbl. cbn [files trace].
    unfold mbind at 1, M_bind at 1. unfold print at 1, print_end at 1, emit at 1.
    cbn [files trace]. rewrite Htbl. cbn [files trace].
    rewrite <- !app_assoc. reflexivity.
  - intros e fs Hq. unfold generate_report. apply bind_inl.
    unfold call_get_entries. cbv zeta.
    change (default fuzzy_match_default None) with false.
    by rewrite Hq.
Qed.
End Report.

(** ** What a computation adds to the trace *)

Section Frames.
Context {L : LanguageTags}.

Lemma adds_only_refl (ok : Event → bool) (r : Run) : adds_only ok r r.
Proof. exists []. by rewrite app_nil_r. Qed.

Lemma adds_only_trans (ok : Event → bool) (r1 r2 r3 : Run) :
  adds_only ok r1 r2 → adds_only ok r2 r3 → adds_only ok r1 r3.
Proof.
  intros (evs1 & H1 & Hok1) (evs2 & H2 & Hok2). exists (evs1 ++ evs2).
  rewrite H2, H1, <- app_assoc, forallb_app, Hok1, Hok2. done.
Qed.

Lemma adds_only_weaken (ok ok' : Event → bool) (r r' : Run) :
  (∀ ev, ok ev = true → ok' ev = true) → adds_only ok r r' → adds_only ok' r r'.
Proof.
  intros Hw (evs & H & Hok). exists evs. split; [done|].
  apply forallb_forall. intros ev Hin.
  apply Hw. by apply (proj1 (forallb_forall ok evs) Hok).
Qed.

Lemma emits_only_ret {A : Type} (ok : Event → bool) (a : A) : emits_only ok (mret a).
Proof. intros r. apply adds_only_refl. Qed.

Lemma emits_only_raise {A : Type} (ok : Event → bool) (e : Exc) :
  emits_only ok (raise (A := A) e).
Proof. intros r. apply adds_only_refl. Qed.

Lemma emits_only_lift {A : Type} (ok : Event → bool) (x : Exc + A) :
  emits_only ok (lift x).
Proof. intros r. apply adds_only_refl. Qed.

Lemma emits_only_emit (ok : Event → bool) (ev : Event) :
  ok ev = true → emits_only ok (emit ev).
Proof. intros Hev r. exists [ev]. cbn. by rewrite Hev. Qed.

Lemma emits_only_bind {A B : Type} (ok : Event → bool) (m : M A) (f : A → M B) :
  emits_only ok m → (∀ a, emits_only ok (f a)) → emits_only ok (m ≫= f).
Proof.
  intros Hm Hf r. unfold mbind, M_bind. specialize (Hm r).
  destruct (m r) as [[e|a] r1]; cbn [snd] in *; [done|].
  eapply adds_only_trans; [exact Hm|]. apply Hf.
Qed.

Lemma emits_only_for_each {A : Type} (ok : Event → bool) (l : list A)
    (body : A → M unit) :
  (∀ x, emits_only ok (body x)) → emits_only ok (for_each l body).
Proof.
  intros Hbody. induction l as [|x l IH]; cbn [for_each].
  - apply emits_only_ret.
  - apply emits_only_bind; [apply Hbody|]. intros _. exact IH.
Qed.

Lemma emits_only_weaken {A : Type} (ok ok' : Event → bool) (m : M A) :
  (∀ ev, ok ev = true → ok' ev = true) → emits_only ok m → emits_only ok' m.
Proof. intros Hw Hm r. by apply (adds_only_weaken ok). Qed.

Lemma leaves_files_ret {A : Type} (a : A) : leaves_files (mret a).
Proof. by intros r. Qed.

Lemma leaves_files_raise {A : Type} (e : Exc) : leaves_files (raise (A := A) e).
Proof. by intros r. Qed.

Lemma leaves_files_lift {A : Type} (x : Exc + A) : leaves_files (lift x).
Proof. by intros r. Qed.

Lemma leaves_files_emit (ev : Event) : leaves_files (emit ev).
Proof. by intros r. Qed.

Lemma leaves_files_bind {A B : Type} (m : M A) (f : A → M B) :
  leaves_files m → (∀ a, leaves_files (f a)) → leaves_files (m ≫= f).
Proof.
  intros Hm Hf r. unfold mbind, M_bind. specialize (Hm r).
  destruct (m r) as [[e|a] r1]; cbn [snd] in *; [done|].
  by rewrite Hf.
Qed.

Lemma lang_pair_quiet (s : string) :
  leaves_files (lang_pair s) ∧ emits_only is_console (lang_pair s).
Proof.
  unfold lang_pair. destruct (Py.split "-" s) as [|c1 [|c2 [|? ?]]];
    try (split; [apply leaves_files_raise | apply emits_only_raise]).
  split.
  - apply leaves_files_bind; [apply leaves_files_lift|]. intros t1.
    apply leaves_files_bind; [apply leaves_files_lift|]. intros t2.
    apply leaves_files_bind; [|intros; apply leaves_files_ret].
    destruct (bool_decide _); [apply leaves_files_emit | apply leaves_files_ret].
  - apply emits_only_bind; [apply emits_only_lift|]. intros t1.
    apply emits_only_bind; [apply emits_only_lift|]. intros t2.
    apply emits_only_bind; [|intros; apply emits_only_ret].
    destruct (bool_decide _); [by apply emits_only_emit | apply emits_only_ret].
Qed.
End Frames.

(** ** parse_args, lines 112-167 *)

Section ParseArgs.
Context {L : LanguageTags} {C : Collaborators}.

Lemma dataset_id_quiet (s : string) :
  leaves_files (dataset_id s) ∧ emits_only is_console (dataset_id s).
Proof.
  unfold dataset_id.
  destruct (Py.split "-" (Py.strip s)) as [|g [|n [|v [|l1 [|l2 [|? ?]]]]]];
    try (split; [apply leaves_files_raise | apply emits_only_raise]).
  destruct (lang_pair_quiet (l1 +:+ "-" +:+ l2)) as [Hf He].
  split.
  - apply leaves_files_bind; [exact Hf|]. intros langs.
    destruct (DatasetId_init g n v langs) as [[]|];
      first [apply leaves_files_raise | apply leaves_files_ret].
  - apply emits_only_bind; [exact He|]. intros langs.
    destruct (DatasetId_init g n v langs) as [[]|];
      first [apply emits_only_raise | apply emits_only_ret].
Qed.

Lemma convert_run {A : Type} (m : M A) (r : Run) :
  (Argparse.convert m r).2 = (m r).2.
Proof.
  unfold Argparse.convert. destruct (m r) as [[[]|a] r1]; try done.
  by case_bool_decide.
Qed.

Lemma convert_quiet {A : Type} (m : M A) :
  leaves_files m ∧ emits_only is_console m →
  leaves_files (Argparse.convert m) ∧ emits_only is_console (Argparse.convert m).
Proof.
  intros [Hf He]. split; intros r; rewrite convert_run; [apply Hf | apply He].
Qed.

Lemma store_one_quiet (d : Argparse.Dest) (v : string) (ns : Namespace.t) :
  leaves_files (Argparse.store_one d v ns)
  ∧ emits_only is_console (Argparse.store_one d v ns).
Proof.
  destruct d; cbn [Argparse.store_one];
    try (split; [apply leaves_files_ret | apply emits_only_ret]).
  destruct (convert_quiet _ (lang_pair_quiet v)) as [Hf He].
  split.
  - apply leaves_files_bind; [exact Hf|]. intros. apply leaves_files_ret.
  - apply emits_only_bind; [exact He|]. intros. apply emits_only_ret.
Qed.

Lemma store_star_add_quiet (d : Argparse.Dest) (v : string) (ns : Namespace.t) :
  leaves_files (Argparse.store_star_add d v ns)
  ∧ emits_only is_console (Argparse.store_star_add d v ns).
Proof.
  destruct (convert_quiet _ (dataset_id_quiet v)) as [Hf He].
  destruct d; cbn [Argparse.store_star_add];
    try (split; [apply leaves_files_ret | apply emits_only_ret]);
    (split;
     [apply leaves_files_bind; [exact Hf|]; intros; apply leaves_files_ret
     |apply emits_only_bind; [exact He|]; intros; apply emits_only_ret]).
Qed.

Lemma parse_sub_quiet (opts : list Argparse.Opt) (argv : list string)
    (st : Argparse.PState) :
  leaves_files (Argparse.parse_sub opts argv st)
  ∧ emits_only is_console (Argparse.parse_sub opts argv st).
Proof.
  revert st. induction argv as [|a rest IH]; intros st; cbn [Argparse.parse_sub].
  - destruct (Argparse.awaits_value st);
      (split; [first [apply leaves_files_raise | apply leaves_files_ret]
              |first [apply emits_only_raise | apply emits_only_ret]]).
  - destruct (Argparse.find_opt a opts) as [o|].
    + destruct (Argparse.awaits_value st);
        [split; [apply leaves_files_raise | apply emits_only_raise]|].
      destruct (existsb _ _);
        [split; [apply leaves_files_raise | apply emits_only_raise]|].
      destruct (Argparse.kind o); try apply IH.
      split; [apply leaves_files_raise | apply emits_only_raise].
    + destruct (Argparse.looks_like_option a).
      * destruct (Argparse.awaits_value st); [|apply IH].
        split; [apply leaves_files_raise | apply emits_only_raise].
      * destruct (Argparse.pending st) as [[d [|]]|]; [| |apply IH].
        -- destruct (store_star_add_quiet d a (Argparse.ns st)) as [Hf He].
           split; [apply leaves_files_bind | apply emits_only_bind];
             try done; intros ns'; apply IH.
        -- destruct (store_one_quiet d a (Argparse.ns st)) as [Hf He].
           split; [apply leaves_files_bind | apply emits_only_bind];
             try done; intros ns'; apply IH.
Qed.

Lemma parse_top_quiet (prog : string) (argv : list string) (ns0 : Namespace.t)
    (extras0 : bool) :
  leaves_files (Argparse.parse_top prog argv ns0 extras0)
  ∧ emits_only is_console (Argparse.parse_top prog argv ns0 extras0).
Proof.
  revert ns0 extras0.
  induction argv as [|a rest IH]; intros ns0 extras0; cbn [Argparse.parse_top].
  { split; [apply leaves_files_raise | apply emits_only_raise]. }
  repeat case_bool_decide; try apply IH;
    try (split; [apply leaves_files_raise | apply emits_only_raise]).
  - split.
    + apply leaves_files_bind; [apply leaves_files_emit|].
      intros. apply leaves_files_raise.
    + apply emits_only_bind; [by apply emits_only_emit|].
      intros. apply emits_only_raise.
  - destruct (Argparse.looks_like_option a); [apply IH|].
    destruct (Argparse.find_subparser a) as [opts|];
      [|split; [apply leaves_files_raise | apply emits_only_raise]].
    destruct (parse_sub_quiet opts rest
                (Argparse.mkPState (Namespace.set_task a ns0) None [] false))
      as [Hf He].
    split; [apply leaves_files_bind | apply emits_only_bind]; try done;
      intros st; destruct (_ || _);
      first [apply leaves_files_raise | apply leaves_files_ret
            |apply emits_only_raise | apply emits_only_ret].
Qed.

Lemma parse_args_quiet (prog : string) (argv : list string) :
  leaves_files (parse_args prog argv) ∧ emits_only is_console (parse_args prog argv).
Proof.
  destruct (parse_top_quiet prog argv Namespace.initial false) as [Hf He].
  unfold parse_args. split.
  - apply leaves_files_bind; [exact Hf|]. intros args.
    apply leaves_files_bind; [|intros; apply leaves_files_ret].
    destruct (Namespace.verbose args);
      [apply leaves_files_emit | apply leaves_files_ret].
  - apply emits_only_bind; [exact He|]. intros args.
    apply emits_only_bind; [|intros; apply emits_only_ret].
    destruct (Namespace.verbose args);
      [by apply emits_only_emit | apply emits_only_ret].
Qed.

(** X11: parsing the command line touches no file and calls no
    collaborator, however it ends: all it adds to the trace are lines of
    the log (the suggestions of [lang_pair]), the version line and the
    switch to debug logging. *)
Theorem parse_args_only_talks (prog : string) (argv : list string) (r : Run) :
  files (parse_args prog argv r).2 = files r
  ∧ adds_only is_console r (parse_args prog argv r).2.
Proof.
  destruct (parse_args_quiet prog argv) as [Hf He].
  split; [apply Hf | apply He].
Qed.
End ParseArgs.

(** ** The namespace of an accepted command line *)

Section ParsedNamespace.
Context {L : LanguageTags} {C : Collaborators}.

(** An accepted command line is some of the top-level flags, the name of a
    subcommand, and arguments the subcommand accepts with nothing left
    over. *)
Lemma parse_top_inv (prog : string) (argv : list string) (ns0 args : Namespace.t)
    (extras0 : bool) (r r' : Run) :
  Argparse.parse_top prog argv ns0 extras0 r = (inr args, r') →
  ∃ pre a rest opts ns1 st,
    argv = pre ++ a :: rest
    ∧ Forall (λ x, x ∈ ["-vv"; "--verbose"; "-ri"; "--reindex"]) pre
    ∧ Argparse.find_subparser a = Some opts
    ∧ Namespace.merge ns1 = Namespace.merge ns0
    ∧ Argparse.parse_sub opts rest
        (Argparse.mkPState (Namespace.set_task a ns1) None [] false) r = (inr st, r')
    ∧ Argparse.required_seen opts (Argparse.seen st) = true
    ∧ Argparse.extras st = false ∧ extras0 = false ∧ args = Argparse.ns st.
Proof.
  revert ns0 extras0.
  induction argv as [|a rest IH]; intros ns0 extras0;
    cbn [Argparse.parse_top]; [discriminate|].
  assert (∀ ns0' extras0',
    Namespace.merge ns0' = Namespace.merge ns0 →
    a ∈ ["-vv"; "--verbose"; "-ri"; "--reindex"] →
    Argparse.parse_top prog rest ns0' extras0' r = (inr args, r') →
    extras0' = extras0 →
    ∃ pre a0 rest0 opts ns1 st,
      a :: rest = pre ++ a0 :: rest0
      ∧ Forall (λ x, x ∈ ["-vv"; "--verbose"; "-ri"; "--reindex"]) pre
      ∧ Argparse.find_subparser a0 = Some opts
      ∧ Namespace.merge ns1 = Namespace.merge ns0
      ∧ Argparse.parse_sub opts rest0
          (Argparse.mkPState (Namespace.set_task a0 ns1) None [] false) r
        = (inr st, r')
      ∧ Argparse.required_seen opts (Argparse.seen st) = true
      ∧ Argparse.extras st = false ∧ extras0 = false
      ∧ args = Argparse.ns st) as Hflag.
  { intros ns0' extras0' Hm Ha Hrun <-.
    apply IH in Hrun
      as (pre & a0 & rest0 & opts & ns1 & st & -> & Hpre & Hsub & Hm1 & Hrest).
    exists (a :: pre), a0, rest0, opts, ns1, st.
    split; [done|]. split; [by constructor|]. split; [done|].
    split; [congruence|done]. }
  repeat case_bool_decide; try discriminate.
  - intros Hrun. refine (Hflag _ _ _ _ Hrun eq_refl); [reflexivity|].
    rewrite !elem_of_cons in *. tauto.
  - intros Hrun. refine (Hflag _ _ _ _ Hrun eq_refl); [reflexivity|].
    rewrite !elem_of_cons in *. tauto.
  - destruct (Argparse.looks_like_option a).
    { intros Hrun. apply IH in Hrun as (? & ? & ? & ? & ? & ? & Hrun).
      destruct Hrun as (_ & _ & _ & _ & _ & _ & _ & Hfalse & _). discriminate. }
    destruct (Argparse.find_subparser a) as [opts|] eqn:Esub; [|discriminate].
    intros Hrun. apply bind_inv in Hrun as (st & r1 & Hsub & Hret).
    destruct (negb _) eqn:Hreq; [discriminate|].
    destruct extras0; [discriminate|].
    destruct (Argparse.extras st) eqn:Hex; [discriminate|].
    injection Hret as <- <-.
    exists [], a, rest, opts, ns0, st.
    apply negb_false_iff in Hreq. done.
Qed.

Lemma store_const_fields (d : Argparse.Dest) (b : bool) (ns : Namespace.t) :
  Namespace.langs (Argparse.store_const d b ns) = Namespace.langs ns
  ∧ Namespace.out (Argparse.store_const d b ns) = Namespace.out ns
  ∧ Namespace.merge (Argparse.store_const d b ns)
    = match d with Argparse.DMerge => b | _ => Namespace.merge ns end.
Proof. by destruct d. Qed.

Lemma store_star_begin_fields (d : Argparse.Dest) (ns : Namespace.t) :
  Namespace.langs (Argparse.store_star_begin d ns) = Namespace.langs ns
  ∧ Namespace.out (Argparse.store_star_begin d ns) = Namespace.out ns
  ∧ Namespace.merge (Argparse.store_star_begin d ns) = Namespace.merge ns.
Proof. by destruct d. Qed.

Lemma store_star_add_fields (d : Argparse.Dest) (v : string) (ns ns' : Namespace.t)
    (r r' : Run) :
  Argparse.store_star_add d v ns r = (inr ns', r') →
  Namespace.langs ns' = Namespace.langs ns ∧ Namespace.out ns' = Namespace.out ns
  ∧ Namespace.merge ns' = Namespace.merge ns.
Proof.
  destruct d; cbn [Argparse.store_star_add]; intros Hrun;
    try (injection Hrun as <- _; done);
    apply bind_inv in Hrun as (did & r1 & _ & Hret);
    injection Hret as <- _; done.
Qed.

Lemma store_one_fields (d : Argparse.Dest) (v : string) (ns ns' : Namespace.t)
    (r r' : Run) :
  Argparse.store_one d v ns r = (inr ns', r') →
  Namespace.merge ns' = Namespace.merge ns
  ∧ match d with
    | Argparse.DLangs =>
        is_Some (Namespace.langs ns') ∧ Namespace.out ns' = Namespace.out ns
    | Argparse.DOut =>
        is_Some (Namespace.out ns') ∧ Namespace.langs ns' = Namespace.langs ns
    | _ => Namespace.langs ns' = Namespace.langs ns
           ∧ Namespace.out ns' = Namespace.out ns
    end.
Proof.
  destruct d; cbn [Argparse.store_one]; intros Hrun;
    try (injection Hrun as <- _; done).
  apply bind_inv in Hrun as (lp & r1 & _ & Hret). injection Hret as <- _.
  cbn. eauto.
Qed.

Lemma find_opt_elem (a : string) (opts : list Argparse.Opt) (o : Argparse.Opt) :
  Argparse.find_opt a opts = Some o → o ∈ opts ∧ a ∈ Argparse.option_strings o.
Proof.
  intros Hf. apply List.find_some in Hf as [Hin Ha].
  split; [by apply list_elem_of_In|]. by apply bool_decide_eq_true in Ha.
Qed.

(** Once [-l] or [-o] has been seen, its value is stored or is the next
    argument. *)
Lemma parse_sub_required (opts : list Argparse.Opt) (argv : list string)
    (st st' : Argparse.PState) (r r' : Run) :
  Forall (λ o,
    (Argparse.opt_id o = "-l" →
     Argparse.dest o = Argparse.DLangs ∧ Argparse.kind o = Argparse.StoreOne)
    ∧ (Argparse.opt_id o = "-o" →
       Argparse.dest o = Argparse.DOut ∧ Argparse.kind o = Argparse.StoreOne)) opts →
  Argparse.parse_sub opts argv st r = (inr st', r') →
  ("-l" ∈ Argparse.seen st →
   is_Some (Namespace.langs (Argparse.ns st))
   ∨ Argparse.pending st = Some (Argparse.DLangs, false)) →
  ("-o" ∈ Argparse.seen st →
   is_Some (Namespace.out (Argparse.ns st))
   ∨ Argparse.pending st = Some (Argparse.DOut, false)) →
  ("-l" ∈ Argparse.seen st' → is_Some (Namespace.langs (Argparse.ns st')))
  ∧ ("-o" ∈ Argparse.seen st' → is_Some (Namespace.out (Argparse.ns st'))).
Proof.
  intros Htab. revert st r.
  induction argv as [|a rest IH]; intros st r Hrun HA HB;
    cbn [Argparse.parse_sub] in Hrun.
  { destruct (Argparse.awaits_value st) eqn:Haw; [discriminate|].
    injection Hrun as <- _. unfold Argparse.awaits_value in Haw.
    split; intros Hin.
    - destruct (HA Hin) as [|Hp]; [done|]. by rewrite Hp in Haw.
    - destruct (HB Hin) as [|Hp]; [done|]. by rewrite Hp in Haw. }
  assert (Argparse.awaits_value st = false →
          ("-l" ∈ Argparse.seen st → is_Some (Namespace.langs (Argparse.ns st)))
          ∧ ("-o" ∈ Argparse.seen st → is_Some (Namespace.out (Argparse.ns st))))
    as Hstored.
  { unfold Argparse.awaits_value. intros Haw. split; intros Hin.
    - destruct (HA Hin) as [|Hp]; [done|]. by rewrite Hp in Haw.
    - destruct (HB Hin) as [|Hp]; [done|]. by rewrite Hp in Haw. }
  destruct (Argparse.find_opt a opts) as [o|] eqn:Ef.
  - apply find_opt_elem in Ef as [Ho _].
    apply (proj1 (Forall_forall _ _) Htab) in Ho as [Hl Hout].
    destruct (Argparse.awaits_value st) eqn:Haw; [discriminate|].
    destruct (Hstored eq_refl) as [HA' HB'].
    destruct (existsb _ _); [discriminate|].
    destruct (Argparse.kind o) eqn:Hk; [discriminate| | |];
      apply IH in Hrun; try exact Hrun;
      cbn [Argparse.seen Argparse.ns Argparse.pending];
      intros Hin; apply elem_of_cons in Hin as [Hid|Hin];
      try (symmetry in Hid; first [apply Hl in Hid as [Hd Hk'] | apply Hout in Hid as [Hd Hk']];
           first [congruence | right; by rewrite Hd]);
      left;
      first [rewrite (proj1 (store_const_fields _ _ _))
            |rewrite (proj1 (proj2 (store_const_fields _ _ _)))
            |rewrite (proj1 (store_star_begin_fields _ _))
            |rewrite (proj1 (proj2 (store_star_begin_fields _ _)))
            |idtac]; auto.
  - destruct (Argparse.looks_like_option a).
    + destruct (Argparse.awaits_value st) eqn:Haw; [discriminate|].
      destruct (Hstored eq_refl) as [HA' HB'].
      apply IH in Hrun; [done|..]; cbn [Argparse.seen Argparse.ns Argparse.pending];
        auto.
    + destruct (Argparse.pending st) as [[d [|]]|] eqn:Hp.
      * destruct (Hstored ltac:(unfold Argparse.awaits_value; by rewrite Hp))
          as [HA' HB'].
        apply bind_inv in Hrun as (ns' & r1 & Hadd & Hrun).
        apply store_star_add_fields in Hadd as (Hl & Ho & _).
        apply IH in Hrun; [done|..]; cbn [Argparse.seen Argparse.ns Argparse.pending];
          intros Hin; left; [rewrite Hl | rewrite Ho]; auto.
      * apply bind_inv in Hrun as (ns' & r1 & Hone & Hrun).
        apply store_one_fields in Hone as [_ Hone].
        apply IH in Hrun; [done|..]; cbn [Argparse.seen Argparse.ns Argparse.pending];
          intros Hin; left.
        -- destruct (HA Hin) as [Hs|Hd].
           ++ destruct d; destruct Hone as [H1 H2]; try done; by rewrite ?H1, ?H2.
           ++ injection Hd as ->. by destruct Hone.
        -- destruct (HB Hin) as [Hs|Hd].
           ++ destruct d; destruct Hone as [H1 H2]; try done; by rewrite ?H1, ?H2.
           ++ injection Hd as ->. by destruct Hone.
      * destruct (Hstored ltac:(unfold Argparse.awaits_value; by rewrite Hp))
          as [HA' HB'].
        apply IH in Hrun; [done|..]; cbn [Argparse.seen Argparse.ns Argparse.pending];
          auto.
Qed.

Lemma get_p_required_table :
  Forall (λ o,
    (Argparse.opt_id o = "-l" →
     Argparse.dest o = Argparse.DLangs ∧ Argparse.kind o = Argparse.StoreOne)
    ∧ (Argparse.opt_id o = "-o" →
       Argparse.dest o = Argparse.DOut ∧ Argparse.kind o = Argparse.StoreOne))
    Argparse.get_p.
Proof. unfold Argparse.get_p. repeat constructor; cbn; done. Qed.

(** The subcommand of an accepted command line is its [task]. *)
Lemma parse_top_subcommand (prog : string) (argv : list string)
    (ns0 args : Namespace.t) (extras0 : bool) (r r' : Run) :
  Argparse.parse_top prog argv ns0 extras0 r = (inr args, r') →
  ∃ pre rest opts ns1 st,
    argv = pre ++ Namespace.task args :: rest
    ∧ Forall (λ x, x ∈ ["-vv"; "--verbose"; "-ri"; "--reindex"]) pre
    ∧ Argparse.find_subparser (Namespace.task args) = Some opts
    ∧ Namespace.merge ns1 = Namespace.merge ns0
    ∧ Argparse.parse_sub opts rest
        (Argparse.mkPState (Namespace.set_task (Namespace.task args) ns1) None []
           false) r = (inr st, r')
    ∧ Argparse.required_seen opts (Argparse.seen st) = true
    ∧ Argparse.extras st = false ∧ args = Argparse.ns st.
Proof.
  intros Hrun.
  apply parse_top_inv in Hrun
    as (pre & a & rest & opts & ns1 & st & -> & Hpre & Hsub & Hm & Hrun & Hreq
        & Hex & _ & ->).
  pose proof (parse_sub_task _ _ _ _ _ _ Hrun) as Htask. cbn in Htask.
  rewrite Htask. exists pre, rest, opts, ns1, st. done.
Qed.

(** X12: the namespace of an accepted [get] command line always holds a
    language pair and an output directory: both options are required, so
    [get_data] never meets a missing one. *)
Theorem get_namespace_has_langs_and_out (prog : string) (argv : list string)
    (args : Namespace.t) (r r' : Run) :
  parse_args prog argv r = (inr args, r') →
  Namespace.task args = "get" →
  is_Some (Namespace.langs args) ∧ is_Some (Namespace.out args).
Proof.
  intros Hrun Htask. unfold parse_args in Hrun.
  apply bind_inv in Hrun as (args' & r1 & Htop & Hrun).
  apply bind_inv in Hrun as ([] & r2 & _ & Hret). injection Hret as <- _.
  apply parse_top_subcommand in Htop
    as (pre & rest & opts & ns1 & st & _ & _ & Hsub & _ & Hrun & Hreq & _ & ->).
  rewrite Htask in Hsub. injection Hsub as <-.
  apply (parse_sub_required _ _ _ _ _ _ get_p_required_table) in Hrun
    as [Hl Ho]; cbn [Argparse.seen]; try (intros Hin; by apply elem_of_nil in Hin).
  cbn in Hreq. repeat (apply andb_prop in Hreq as [? Hreq]).
  repeat match goal with
         | H : bool_decide _ = true |- _ => apply bool_decide_eq_true_1 in H
         end.
  auto.
Qed.




End ParsedNamespace.

(** ** main on the list and report subcommands *)

Section ReadOnly.
Context {L : LanguageTags} {C : Collaborators}.

Lemma call_get_entries_emits (langs : option LangPair)
    (names not_names : option (list string)) (fuzzy_match : option bool) :
  emits_only is_console_or_query
    (call_get_entries langs names not_names fuzzy_match).
Proof.
  intros r. unfold call_get_entries.
  destruct (get_entries _ _ _ _ _) as [res fs]. cbn [snd trace].
  by eexists [_].
Qed.

Lemma print_emits (text : string) : emits_only is_console_or_query (print text).
Proof. by apply emits_only_emit. Qed.

Lemma list_data_emits (langs : option LangPair)
    (names not_names : option (list string)) (full : bool) :
  emits_only is_console_or_query (list_data langs names not_names full).
Proof.
  unfold list_data.
  apply emits_only_bind; [apply call_get_entries_emits|]. intros entries.
  apply emits_only_bind; [by apply emits_only_emit|]. intros _.
  apply emits_only_bind; [|intros; apply print_emits].
  apply emits_only_for_each. intros ent.
  apply emits_only_bind; [apply print_emits|]. intros _.
  destruct full; [by apply emits_only_emit | apply emits_only_ret].
Qed.

Lemma generate_report_emits (langs : option LangPair)
    (names not_names : option (list string)) :
  emits_only is_console_or_query (generate_report langs names not_names).
Proof.
  unfold generate_report.
  apply emits_only_bind; [apply call_get_entries_emits|]. intros entries.
  cbv zeta.
  apply emits_only_bind; [apply print_emits|]. intros _.
  apply emits_only_bind;
    [apply emits_only_for_each; intros; apply print_emits|]. intros _.
  apply emits_only_bind; [apply print_emits|]. intros _.
  apply emits_only_for_each. intros. apply print_emits.
Qed.

(** X14: a run of [main] on an accepted [list] or [report] command line
    without the reindex flag only talks and asks the catalog: whatever the
    catalog answers, every event it adds to the trace is a log line, a
    printed line, the switch to debug logging or a catalog query; it never
    renames or appends to a file and never starts an acquisition. *)
Theorem main_list_report_only_query (prog : string) (argv : list string)
    (args : Namespace.t) (r r1 : Run) :
  parse_args prog argv r = (inr args, r1) →
  Namespace.task args ≠ "get" →
  Namespace.reindex args = false →
  adds_only is_console_or_query r (main prog argv r).2.
Proof.
  intros Hparse Htask Hri.
  assert (adds_only is_console_or_query r r1) as Hr1.
  { destruct (parse_args_quiet prog argv) as [_ Hc]. specialize (Hc r).
    rewrite Hparse in Hc. cbn [snd] in Hc.
    apply (adds_only_weaken is_console); [|done].
    intros ev Hev. unfold is_console_or_query. by rewrite Hev. }
  unfold main. rewrite (bind_inr _ _ _ _ _ Hparse).
  rewrite (bind_inr _ _ r1 r1 ()) by (apply invalidate_index_skips; by left).
  eapply adds_only_trans; [exact Hr1|].
  assert (Namespace.task args ∈ ["list"; "get"; "report"]) as Hin.
  { unfold parse_args in Hparse.
    apply bind_inv in Hparse as (args' & r0 & Htop & Hret).
    apply bind_inv in Hret as ([] & r2 & _ & Hret). injection Hret as <- _.
    by apply parse_top_task in Htop. }
  unfold run_task.
  repeat (apply elem_of_cons in Hin as [Hin|Hin]); try (by apply elem_of_nil in Hin);
    rewrite Hin in *; cbn [select_branch String.eqb Ascii.eqb Bool.eqb andb];
    [apply list_data_emits | done | apply generate_report_emits].
Qed.
End ReadOnly.

(** ** The top-level flags *)

Section TopLevelFlags.
Context {L : LanguageTags} {C : Collaborators}.







End TopLevelFlags.

(** ** The further properties on the small catalog *)

Lemma lang_pair_resolves_and_suggests_witness :
  Py.split "-" "de-en" = ["de"; "en"]
  ∧ ∃ r', @lang_pair Demo.tags "de-en" Demo.empty_run = (inr ("deu", "eng"), r')
          ∧ files r' = files Demo.empty_run ∧ length (trace r') = 1.
Proof.
  split; [reflexivity|].
  destruct (lang_pair_resolves_and_suggests (L := Demo.tags) "de-en" "de" "en"
              "deu" "eng" Demo.empty_run eq_refl eq_refl eq_refl)
    as (r' & Hrun & Hfiles & _ & Hlog).
  exists r'. split; [exact Hrun|]. split; [exact Hfiles|].
  destruct Hlog as (msg & Htrace & _); [vm_compute; discriminate|].
  rewrite Htrace. reflexivity.
Defined.

Lemma lang_pair_raises_unchanged_witness :
  length (Py.split "-" "deu") = 1
  ∧ (@lang_pair Demo.tags "deu" Demo.empty_run).2 = Demo.empty_run.
Proof.
  split; [reflexivity|].
  set (res := @lang_pair Demo.tags "deu" Demo.empty_run).
  assert (res = (inl (match res.1 with inl e => e | inr _ => SystemExit 0 end), res.2))
    as Hrun by (vm_compute; reflexivity).
  exact (proj1 (lang_pair_raises_unchanged (L := Demo.tags) _ _ _ _ Hrun)).
Defined.

Lemma dataset_id_accepts_witness :
  Py.split "-" (Py.strip " Statmt-newstest-2018-de-en")
  = ["Statmt"; "newstest"; "2018"; "de"; "en"]
  ∧ ∃ r', @dataset_id Demo.tags Demo.env " Statmt-newstest-2018-de-en" Demo.empty_run
          = (inr Demo.newstest2018, r')
          ∧ files r' = files Demo.empty_run.
Proof.
  split; [reflexivity|].
  destruct (dataset_id_accepts (C := Demo.env) " Statmt-newstest-2018-de-en"
              "Statmt" "newstest" "2018" "de" "en" "deu" "eng" Demo.empty_run
              eq_refl eq_refl eq_refl eq_refl) as (r' & Hrun & _ & Hfiles).
  exists r'. split; [exact Hrun | exact Hfiles].
Defined.


Lemma dataset_id_ignores_outer_whitespace_witness :
  length (Py.split "-" (Py.strip " Statmt-newstest-2018-de-en ")) = 5
  ∧ @dataset_id Demo.tags Demo.env (Py.strip " Statmt-newstest-2018-de-en ")
      Demo.empty_run
    = @dataset_id Demo.tags Demo.env " Statmt-newstest-2018-de-en " Demo.empty_run.
Proof.
  split; [reflexivity|].
  apply (dataset_id_ignores_outer_whitespace (C := Demo.env)). reflexivity.
Defined.

Lemma dataset_id_reparses_its_string_witness :
  DatasetId.str Demo.newstest2018 = "Statmt-newstest-2018-deu-eng"
  ∧ @dataset_id Demo.tags Demo.env (DatasetId.str Demo.newstest2018) Demo.empty_run
    = (inr Demo.newstest2018, Demo.empty_run).
Proof.
  split; [reflexivity|].
  set (res := @dataset_id Demo.tags Demo.env " Statmt-newstest-2018-de-en"
                Demo.empty_run).
  assert (res = (inr Demo.newstest2018, res.2)) as Hrun by (vm_compute; reflexivity).
  apply (dataset_id_reparses_its_string (C := Demo.env) _ _ _ _ Demo.empty_run Hrun);
    reflexivity.
Defined.

Lemma list_data_output_witness :
  ∃ entries,
    Demo.lookup_entries None (Some ["euro"]) None true (files Demo.empty_run)
    = (inr entries, files Demo.empty_run)
    ∧ length entries = 1
    ∧ (@list_data Demo.tags Demo.env None (Some ["euro"]) None true Demo.empty_run).1
      = inr ().
Proof.
  eexists. split; [reflexivity|]. split; [reflexivity|].
  by rewrite (proj1 (list_data_output (C := Demo.env) None (Some ["euro"]) None true
                      Demo.empty_run) _ _ eq_refl).
Defined.

Lemma generate_report_output_witness :
  ∃ entries,
    Demo.lookup_entries None None None false (files Demo.empty_run)
    = (inr entries, files Demo.empty_run)
    ∧ tally ((λ ent, Py.join "_" (Entry.langs ent)) <$> entries) = [("deu_eng", 2)]
    ∧ (@generate_report Demo.tags Demo.env None None None Demo.empty_run).1 = inr ().
Proof.
  eexists. split; [reflexivity|]. split; [reflexivity|].
  by rewrite (proj1 (generate_report_output (C := Demo.env) None None None
                      Demo.empty_run) _ _ eq_refl).
Defined.

Lemma get_namespace_has_langs_and_out_witness :
  let res := @parse_args Demo.tags Demo.env "mtdata"
               ["get"; "-l"; "de-en"; "-ts"; "Statmt-newstest-2018-de-en";
                "-o"; "/tmp/x"] Demo.empty_run in
  res.1 = inr (Demo.get_args (Some [Demo.newstest2018]))
  ∧ is_Some (Namespace.langs (Demo.get_args (Some [Demo.newstest2018])))
  ∧ is_Some (Namespace.out (Demo.get_args (Some [Demo.newstest2018]))).
Proof.
  cbn zeta.
  set (res := @parse_args Demo.tags Demo.env "mtdata"
                ["get"; "-l"; "de-en"; "-ts"; "Statmt-newstest-2018-de-en";
                 "-o"; "/tmp/x"] Demo.empty_run).
  assert (res = (inr (Demo.get_args (Some [Demo.newstest2018])), res.2)) as Hrun
    by (vm_compute; reflexivity).
  split; [by rewrite Hrun|].
  exact (get_namespace_has_langs_and_out (C := Demo.env) _ _ _ _ _ Hrun eq_refl).
Defined.


Lemma main_list_report_only_query_witness :
  let res := @parse_args Demo.tags Demo.env "mtdata" ["report"; "-n"; "europarl"]
               Demo.empty_run in
  (∃ args, res.1 = inr args ∧ Namespace.task args = "report")
  ∧ adds_only is_console_or_query Demo.empty_run
      (@main Demo.tags Demo.env "mtdata" ["report"; "-n"; "europarl"]
         Demo.empty_run).2.
Proof.
  cbn zeta.
  set (res := @parse_args Demo.tags Demo.env "mtdata" ["report"; "-n"; "europarl"]
                Demo.empty_run).
  set (args := @Namespace.mk Demo.tags false false "report" None (Some ["europarl"])
                 None false None None None false).
  assert (res = (inr args, res.2)) as Hrun by (vm_compute; reflexivity).
  split; [exists args; split; [by rewrite Hrun | reflexivity]|].
  apply (main_list_report_only_query (C := Demo.env) _ _ args _ res.2 Hrun);
    [discriminate | reflexivity].
Defined.

